(** * myria/plans.py: plan views and the parallel-import plan builder

    A shallow embedding of [myria/plans.py] (Python 2) and of the parts
    of Python and of the [jsonpath_rw] library that the module relies on,
    followed by the properties of the specification that concern it.

    Conventions of the embedding.
    - A JSON/Python value is a [pyval].  A [dict] is an association list
      with string keys, kept in insertion order; Python 2 leaves the
      iteration order of a dict unspecified, and no statement below
      depends on it.  [VInt] is Python's [int] (a [long] is not
      modelled), and strings are byte strings.
    - An operation that can raise returns a [result].
    - The builder mutates a one-element list used as a counter; the store
      of such lists is a [heap], threaded by the monad [M]. *)

From Stdlib Require Import ZArith String Ascii List Bool Lia.
From stdpp Require Import base list.
Import ListNotations.

Local Open Scope Z_scope.
Local Open Scope string_scope.
Local Open Scope list_scope.

(** ** Python values *)

Set Warnings "-register-all".

Inductive pyval : Type :=
| VNone
| VBool (b : bool)
| VInt (z : Z)
| VStr (s : string)
| VList (l : list pyval)
| VDict (d : list (string * pyval)).

Abbreviation dict := (list (string * pyval)).

(** The exceptions met in this module.  [NotModelled] is not a Python
    exception: it marks behaviour of Python or of a library that lies
    outside the embedding. *)
Inductive exn : Type :=
| KeyError (key : string)
| AttributeError (attr : string)
| TypeError
| IndexError
| NotModelled (what : string).

Inductive result (A : Type) : Type :=
| Ok (a : A)
| Raise (e : exn).
Arguments Ok {A} a.
Arguments Raise {A} e.

#[global] Instance result_ret : MRet result := fun A a => Ok a.
#[global] Instance result_bind : MBind result := fun A B k r =>
  match r with
  | Ok a => k a
  | Raise e => Raise e
  end.

(** *** Dictionaries *)

(** [d.get(key)] / [key in d] *)
Fixpoint dict_get (d : dict) (key : string) : option pyval :=
  match d with
  | [] => None
  | (k, v) :: d' => if String.eqb key k then Some v else dict_get d' key
  end.

(** [d[key] = v] *)
Fixpoint dict_setitem (d : dict) (key : string) (v : pyval) : dict :=
  match d with
  | [] => [(key, v)]
  | (k, w) :: d' =>
      if String.eqb key k then (k, v) :: d' else (k, w) :: dict_setitem d' key v
  end.

(** [d.update(e)] *)
Definition dict_update (d e : dict) : dict :=
  fold_left (fun acc kv => dict_setitem acc (fst kv) (snd kv)) e d.

(** [d.items()] *)
Definition dict_items (d : dict) : list (string * pyval) := d.

(** A Python dict holds each key once. *)
Definition dict_wf (d : dict) : Prop := NoDup (fst <$> d).

(** *** Truth value, [or], [==], [in], [isinstance(_, int)] *)

Definition py_truthy (v : pyval) : bool :=
  match v with
  | VNone => false
  | VBool b => b
  | VInt z => negb (Z.eqb z 0)
  | VStr s => negb (String.eqb s "")
  | VList l => match l with [] => false | _ => true end
  | VDict d => match d with [] => false | _ => true end
  end.

(** [a or b] *)
Definition py_or (a b : pyval) : pyval := if py_truthy a then a else b.

(** [a == b]; [bool] is a subclass of [int], so [True == 1]. *)
Fixpoint py_eq (a b : pyval) {struct a} : bool :=
  match a, b with
  | VNone, VNone => true
  | VBool x, VBool y => Bool.eqb x y
  | VBool x, VInt y => Z.eqb (Z.b2z x) y
  | VInt x, VBool y => Z.eqb x (Z.b2z y)
  | VInt x, VInt y => Z.eqb x y
  | VStr s, VStr t => String.eqb s t
  | VList l, VList m =>
      (fix eql (l m : list pyval) {struct l} : bool :=
         match l, m with
         | [], [] => true
         | x :: l', y :: m' => py_eq x y && eql l' m'
         | _, _ => false
         end) l m
  | VDict d, VDict e =>
      Nat.eqb (length d) (length e) &&
      (fix sub (d : dict) {struct d} : bool :=
         match d with
         | [] => true
         | (k, v) :: d' =>
             match dict_get e k with
             | Some w => py_eq v w
             | None => false
             end && sub d'
         end) d
  | _, _ => false
  end.

(** [x in xs] for an iterable [xs] *)
Definition py_in (x : pyval) (xs : list pyval) : bool :=
  existsb (fun e => py_eq e x) xs.

(** [isinstance(v, int)] *)
Definition isinstance_int (v : pyval) : bool :=
  match v with
  | VBool _ | VInt _ => true
  | _ => false
  end.

(** [v[key]] for a string [key] *)
Definition py_getitem (v : pyval) (key : string) : result pyval :=
  match v with
  | VDict d =>
      match dict_get d key with
      | Some w => Ok w
      | None => Raise (KeyError key)
      end
  | _ => Raise TypeError
  end.

(** *** Strings: [s.upper()] and [sub in s]

    [upper] maps the ASCII letters a-z to A-Z and leaves other bytes as
    they are. *)

Definition ascii_upper (c : ascii) : ascii :=
  let n := nat_of_ascii c in
  if (Nat.leb 97 n && Nat.leb n 122)%bool then ascii_of_nat (n - 32) else c.

Fixpoint str_upper (s : string) : string :=
  match s with
  | EmptyString => EmptyString
  | String c s' => String (ascii_upper c) (str_upper s')
  end.

Fixpoint str_in (sub s : string) : bool :=
  String.prefix sub s ||
  match s with
  | EmptyString => false
  | String _ s' => str_in sub s'
  end.

(** *** Attributes of the builtin types (Python 2.7) *)

Definition object_attrs : list string :=
  ["__class__"; "__delattr__"; "__doc__"; "__format__"; "__getattribute__";
   "__hash__"; "__init__"; "__new__"; "__reduce__"; "__reduce_ex__";
   "__repr__"; "__setattr__"; "__sizeof__"; "__str__"; "__subclasshook__"].

Definition dict_attrs : list string :=
  ["__cmp__"; "__contains__"; "__delitem__"; "__eq__"; "__ge__";
   "__getitem__"; "__gt__"; "__iter__"; "__le__"; "__len__"; "__lt__";
   "__ne__"; "__setitem__";
   "clear"; "copy"; "fromkeys"; "get"; "has_key"; "items"; "iteritems";
   "iterkeys"; "itervalues"; "keys"; "pop"; "popitem"; "setdefault";
   "update"; "values"; "viewitems"; "viewkeys"; "viewvalues"].

Definition list_attrs : list string :=
  ["__add__"; "__contains__"; "__delitem__"; "__delslice__"; "__eq__";
   "__ge__"; "__getitem__"; "__getslice__"; "__gt__"; "__iadd__";
   "__imul__"; "__iter__"; "__le__"; "__len__"; "__lt__"; "__mul__";
   "__ne__"; "__reversed__"; "__rmul__"; "__setitem__"; "__setslice__";
   "append"; "count"; "extend"; "index"; "insert"; "pop"; "remove";
   "reverse"; "sort"].

Definition str_attrs : list string :=
  ["__add__"; "__contains__"; "__eq__"; "__ge__"; "__getitem__";
   "__getnewargs__"; "__getslice__"; "__gt__"; "__le__"; "__len__";
   "__lt__"; "__mod__"; "__mul__"; "__ne__"; "__rmod__"; "__rmul__";
   "capitalize"; "center"; "count"; "decode"; "encode"; "endswith";
   "expandtabs"; "find"; "format"; "index"; "isalnum"; "isalpha";
   "isdigit"; "islower"; "isspace"; "istitle"; "isupper"; "join"; "ljust";
   "lower"; "lstrip"; "partition"; "replace"; "rfind"; "rindex"; "rjust";
   "rpartition"; "rsplit"; "rstrip"; "split"; "splitlines"; "startswith";
   "strip"; "swapcase"; "title"; "translate"; "upper"; "zfill"].

Definition int_attrs : list string :=
  ["__abs__"; "__add__"; "__and__"; "__cmp__"; "__coerce__"; "__div__";
   "__divmod__"; "__float__"; "__floordiv__"; "__getnewargs__"; "__hex__";
   "__index__"; "__int__"; "__invert__"; "__long__"; "__lshift__";
   "__mod__"; "__mul__"; "__neg__"; "__nonzero__"; "__oct__"; "__or__";
   "__pos__"; "__pow__"; "__radd__"; "__rand__"; "__rdiv__"; "__rdivmod__";
   "__rfloordiv__"; "__rlshift__"; "__rmod__"; "__rmul__"; "__ror__";
   "__rpow__"; "__rrshift__"; "__rshift__"; "__rsub__"; "__rtruediv__";
   "__rxor__"; "__sub__"; "__truediv__"; "__trunc__"; "__xor__";
   "bit_length"; "conjugate"; "denominator"; "imag"; "numerator"; "real"].

Definition attrs_of (v : pyval) : list string :=
  object_attrs ++
  match v with
  | VNone => []
  | VBool _ | VInt _ => int_attrs
  | VStr _ => str_attrs
  | VList _ => list_attrs
  | VDict _ => dict_attrs
  end.

(** A method looked up on an object, bound to it. *)
Record bound_method : Type := BoundMethod { im_self : pyval; im_name : string }.

(** [v.name] *)
Definition py_getattr (v : pyval) (name : string) : result bound_method :=
  if existsb (String.eqb name) (attrs_of v)
  then Ok (BoundMethod v name)
  else Raise (AttributeError name).

(** [m(args)]: the reading methods of a dict with a string key; calls of
    other methods are outside the model. *)
Definition py_call (m : bound_method) (args : list pyval) : result pyval :=
  match im_self m, args with
  | VDict d, [VStr key] =>
      if String.eqb (im_name m) "has_key" || String.eqb (im_name m) "__contains__"
      then Ok (VBool (match dict_get d key with Some _ => true | None => false end))
      else if String.eqb (im_name m) "get"
      then Ok (match dict_get d key with Some w => w | None => VNone end)
      else if String.eqb (im_name m) "__getitem__"
      then py_getitem (VDict d) key
      else Raise (NotModelled (im_name m))
  | _, _ => Raise (NotModelled (im_name m))
  end.

(** *** Generators

    A generator is the trace it produces when consumed: the yielded
    values, ended by exhaustion or by the exception raised on the way. *)

Inductive gen (A : Type) : Type :=
| Stop
| Yield (a : A) (rest : gen A)
| Throw (e : exn).
Arguments Stop {A}.
Arguments Yield {A} a rest.
Arguments Throw {A} e.

Definition gen_of_list {A} (l : list A) : gen A := fold_right Yield Stop l.

(** An iterable whose construction may already raise. *)
Definition gen_of_result {A} (r : result (list A)) : gen A :=
  match r with
  | Ok l => gen_of_list l
  | Raise e => Throw e
  end.

Fixpoint gen_app {A} (g h : gen A) : gen A :=
  match g with
  | Stop => h
  | Yield a g' => Yield a (gen_app g' h)
  | Throw e => Throw e
  end.

(** [(... for a in g for b in k a)] *)
Fixpoint gen_bind {A B} (g : gen A) (k : A -> gen B) : gen B :=
  match g with
  | Stop => Stop
  | Yield a g' => gen_app (k a) (gen_bind g' k)
  | Throw e => Throw e
  end.

(** [(a for a in g if c a)] *)
Fixpoint gen_filter {A} (c : A -> result bool) (g : gen A) : gen A :=
  match g with
  | Stop => Stop
  | Yield a g' =>
      match c a with
      | Ok true => Yield a (gen_filter c g')
      | Ok false => gen_filter c g'
      | Raise e => Throw e
      end
  | Throw e => Throw e
  end.

(** [x in g]: stops at the first element equal to [x]. *)
Fixpoint gen_contains (x : pyval) (g : gen pyval) : result bool :=
  match g with
  | Stop => Ok false
  | Yield e g' => if py_eq e x then Ok true else gen_contains x g'
  | Throw e => Raise e
  end.

(** [next(g, None)] *)
Definition gen_next {A} (g : gen A) : result (option A) :=
  match g with
  | Stop => Ok None
  | Yield a _ => Ok (Some a)
  | Throw e => Raise e
  end.

(** [list(g)] *)
Fixpoint gen_list {A} (g : gen A) : result (list A) :=
  match g with
  | Stop => Ok []
  | Yield a g' => l ← gen_list g'; Ok (a :: l)
  | Throw e => Raise e
  end.

(** ** jsonpath_rw

    The path expressions the module parses, the data they are matched
    against, and [find] as the library defines it on them. *)

Inductive JSONPath : Type :=
| Root
| This
| Fields (field : string)
| Index (index : nat)
| Slice
| Child (left right : JSONPath).

Inductive DatumInContext : Type :=
| Datum (value : pyval) (path : JSONPath) (context : option DatumInContext).

Definition datum_value (d : DatumInContext) : pyval :=
  match d with Datum v _ _ => v end.
Definition datum_path (d : DatumInContext) : JSONPath :=
  match d with Datum _ p _ => p end.
Definition datum_context (d : DatumInContext) : option DatumInContext :=
  match d with Datum _ _ c => c end.

(** [DatumInContext.wrap(data)] for data that is not yet a datum *)
Definition wrap (data : pyval) : DatumInContext := Datum data This None.

(** [Root().find]: the outermost enclosing datum *)
Fixpoint root_find (d : DatumInContext) : DatumInContext :=
  match d with
  | Datum v _ None => Datum v Root None
  | Datum _ _ (Some c) => root_find c
  end.

(** [Fields(field).find] for one named field: a value that cannot be
    subscripted by the name gives no match. *)
Definition fields_find (field : string) (d : DatumInContext) : list DatumInContext :=
  match datum_value d with
  | VDict m =>
      match dict_get m field with
      | Some v => [Datum v (Fields field) (Some d)]
      | None => []
      end
  | _ => []
  end.

(** [Slice().find], that is [[*]]: a dict, an integer or a string is
    first put in a one-element list; [len(None)] raises. *)
Definition slice_find (d : DatumInContext) : result (list DatumInContext) :=
  match datum_value d with
  | VList l => Ok (imap (fun i v => Datum v (Index i) (Some d)) l)
  | VNone => Raise TypeError
  | v =>
      let d' := Datum (VList [v]) (datum_path d) (datum_context d) in
      Ok [Datum v (Index 0) (Some d')]
  end.

(** [Index(i).find], on lists *)
Definition index_find (i : nat) (d : DatumInContext) : result (list DatumInContext) :=
  match datum_value d with
  | VList l =>
      match l !! i with
      | Some v => Ok [Datum v (Index i) (Some d)]
      | None => Ok []
      end
  | _ => Raise (NotModelled "Index")
  end.

Fixpoint flat_mapM {A B} (f : A -> result (list B)) (l : list A) : result (list B) :=
  match l with
  | [] => Ok []
  | x :: l' => ys ← f x; zs ← flat_mapM f l'; Ok (ys ++ zs)
  end.

Fixpoint find (p : JSONPath) (d : DatumInContext) : result (list DatumInContext) :=
  match p with
  | Root => Ok [root_find d]
  | This => Ok [d]
  | Fields field => Ok (fields_find field d)
  | Index i => index_find i d
  | Slice => slice_find d
  | Child l r => subs ← find l d; flat_mapM (find r) subs
  end.

(** ** The views *)

Definition DEFAULT_SCAN_TYPE : string := "FileScan".
Definition DEFAULT_INSERT_TYPE : string := "DbInsert".

Record MyriaPlan : Type := { json : pyval }.

Record MyriaFragment : Type :=
  { fragment_datum : DatumInContext; fragment_plan : MyriaPlan }.

Record MyriaOperator : Type :=
  { operator_datum : DatumInContext; operator_plan : MyriaPlan }.

(** [jsonpath.parse('$.plan.fragments.[*]')] *)
Definition MyriaPlan_expressions_fragments : JSONPath :=
  Child (Child (Child Root (Fields "plan")) (Fields "fragments")) Slice.

(** [jsonpath.parse('$.plan.fragments.[*].operators.[*]')] *)
Definition MyriaPlan_expressions_operators : JSONPath :=
  Child (Child (Child (Child (Child Root (Fields "plan")) (Fields "fragments")) Slice)
           (Fields "operators")) Slice.

(** [jsonpath.parse('`this`.operators[*]')] *)
Definition MyriaFragment_expressions_operators : JSONPath :=
  Child (Child This (Fields "operators")) Slice.

Definition MyriaPlan_fragments (self : MyriaPlan) : gen MyriaFragment :=
  gen_of_result
    (fs ← find MyriaPlan_expressions_fragments (wrap (json self));
     Ok ((fun f => {| fragment_datum := f; fragment_plan := self |}) <$> (fs : list DatumInContext))).

Definition MyriaPlan_operators (self : MyriaPlan) : gen MyriaOperator :=
  gen_of_result
    (os ← find MyriaPlan_expressions_operators (wrap (json self));
     Ok ((fun o => {| operator_datum := o; operator_plan := self |}) <$> (os : list DatumInContext))).

Definition MyriaFragment_workers (self : MyriaFragment) : result pyval :=
  py_getitem (datum_value (fragment_datum self)) "overrideWorkers".

Definition MyriaFragment_operators (self : MyriaFragment) : gen MyriaOperator :=
  gen_of_result
    (os ← find MyriaFragment_expressions_operators (fragment_datum self);
     Ok ((fun o => {| operator_datum := o; operator_plan := fragment_plan self |}) <$> (os : list DatumInContext))).

Definition MyriaOperator_id (self : MyriaOperator) : result pyval :=
  py_getitem (datum_value (operator_datum self)) "opId".

Definition MyriaOperator_type (self : MyriaOperator) : result pyval :=
  py_getitem (datum_value (operator_datum self)) "opType".

(** [self.context.context] *)
Definition MyriaOperator_fragment (self : MyriaOperator) : result (option DatumInContext) :=
  match datum_context (operator_datum self) with
  | Some c => Ok (datum_context c)
  | None => Raise (AttributeError "context")
  end.

(** [self.value.items()] *)
Definition MyriaOperator_items (self : MyriaOperator) : result (list (string * pyval)) :=
  _ ← py_getattr (datum_value (operator_datum self)) "items";
  match datum_value (operator_datum self) with
  | VDict d => Ok (dict_items d)
  | _ => Raise (NotModelled "items")
  end.

Definition is_child_item (kv : string * pyval) : bool :=
  str_in "CHILD" (str_upper (fst kv)) && isinstance_int (snd kv).

Definition MyriaOperator__child_ids (self : MyriaOperator) : gen pyval :=
  gen_of_result
    (items ← MyriaOperator_items self;
     Ok (snd <$> List.filter is_child_item (items : list (string * pyval)))).

Definition MyriaOperator_children (self : MyriaOperator) : gen MyriaOperator :=
  gen_filter
    (fun op => i ← MyriaOperator_id op; gen_contains i (MyriaOperator__child_ids self))
    (MyriaPlan_operators (operator_plan self)).

Definition MyriaOperator_parent (self : MyriaOperator) : result (option MyriaOperator) :=
  gen_next
    (gen_bind (MyriaPlan_operators (operator_plan self)) (fun op =>
     gen_bind (MyriaOperator_children op) (fun child =>
       match (s ← MyriaOperator_id self; c ← MyriaOperator_id child; Ok (py_eq s c)) with
       | Ok true => Yield op Stop
       | Ok false => Stop
       | Raise e => Throw e
       end))).

Definition MyriaOperator___getitem__ (self : MyriaOperator) (item : string) : result pyval :=
  py_getitem (datum_value (operator_datum self)) item.

(** [self.value.contains(item)] *)
Definition MyriaOperator___contains__ (self : MyriaOperator) (item : string) : result pyval :=
  m ← py_getattr (datum_value (operator_datum self)) "contains";
  py_call m [VStr item].

(** ** The store of mutable integer lists *)

Abbreviation heap := (list (list Z)).
Abbreviation ref := nat.

Definition M (A : Type) : Type := heap -> result (A * heap).

#[global] Instance M_ret : MRet M := fun A a h => Ok (a, h).
#[global] Instance M_bind : MBind M := fun A B k m h =>
  match m h with
  | Ok (a, h') => k a h'
  | Raise e => Raise e
  end.

(** A list display [[z; ...]]: a fresh list object *)
Definition new_list (l : list Z) : M ref :=
  fun h => Ok (length h, h ++ [l]).

(** [r[i]] *)
Definition list_getitem (r : ref) (i : nat) : M Z :=
  fun h =>
    match h !! r with
    | Some l =>
        match l !! i with
        | Some z => Ok (z, h)
        | None => Raise IndexError
        end
    | None => Raise (NotModelled "dangling reference")
    end.

(** [r[i] = z] *)
Definition list_setitem (r : ref) (i : nat) (z : Z) : M unit :=
  fun h =>
    match h !! r with
    | Some l =>
        if decide (i < length l)%nat
        then Ok (tt, <[r := <[i := z]> l]> h)
        else Raise IndexError
    | None => Raise (NotModelled "dangling reference")
    end.

(** [map(f, l)] of Python 2: the calls are made in order, at once. *)
Fixpoint py_map {A B} (f : A -> M B) (l : list A) : M (list B) :=
  match l with
  | [] => mret []
  | x :: l' => y ← f x; ys ← py_map f l'; mret (y :: ys)
  end.

(** ** The parallel-import plan builder *)

(** The schema is an external object; only [to_dict()] is asked of it. *)
Record Schema : Type := { to_dict : pyval }.

(** [parameters or {}] *)
Definition or_empty (parameters : option dict) : dict :=
  match parameters with
  | Some (kv :: d) => kv :: d
  | _ => []
  end.

Definition __increment (value : ref) : M Z :=
  v ← list_getitem value 0;
  _ ← list_setitem value 0 (v + 1);
  v' ← list_getitem value 0;
  mret (v' - 1).

Definition _get_parallel_import_fragment
    (taskid : ref) (schema : Schema) (relation : pyval)
    (scan_type insert_type : pyval)
    (scan_parameters insert_parameters : option dict)
    (assignment : pyval * pyval) : M pyval :=
  let worker_id := fst assignment in
  let datasource := snd assignment in
  scan_id ← __increment taskid;
  let scan :=
    [("opId", VInt scan_id);
     ("opType", py_or scan_type (VStr DEFAULT_SCAN_TYPE));
     ("schema", to_dict schema);
     ("source", datasource)] in
  let scan := dict_update scan (or_empty scan_parameters) in
  insert_id ← __increment taskid;
  counter ← list_getitem taskid 0;
  let insert :=
    [("opId", VInt insert_id);
     ("opType", py_or insert_type (VStr DEFAULT_INSERT_TYPE));
     ("argChild", VInt (counter - 2));
     ("argOverwriteTable", VBool true);
     ("relationKey", relation)] in
  let insert := dict_update insert (or_empty insert_parameters) in
  mret (VDict [("overrideWorkers", VList [worker_id]);
               ("operators", VList [VDict scan; VDict insert])]).

Definition get_parallel_import_plan
    (schema : Schema) (work : list (pyval * pyval)) (relation : pyval)
    (text : pyval) (scan_parameters insert_parameters : option dict)
    (scan_type insert_type : pyval) : M pyval :=
  taskid ← new_list [0];
  fragments ← py_map (_get_parallel_import_fragment taskid schema relation
                        scan_type insert_type
                        scan_parameters insert_parameters) work;
  mret (VDict [("fragments", VList fragments);
               ("logicalRa", text);
               ("rawQuery", text)]).

(** ** Reading a plan document

    What a caller does with the document the builder returns:
    [doc['fragments']], [fragment['operators']], [operator['opId']]. *)

Definition py_list (v : pyval) : result (list pyval) :=
  match v with
  | VList l => Ok l
  | _ => Raise TypeError
  end.

Fixpoint mapM_result {A B} (f : A -> result B) (l : list A) : result (list B) :=
  match l with
  | [] => Ok []
  | x :: l' => y ← f x; ys ← mapM_result f l'; Ok (y :: ys)
  end.

Definition document_fragments (doc : pyval) : result (list pyval) :=
  fs ← py_getitem doc "fragments"; py_list fs.

Definition fragment_operators (fragment : pyval) : result (list pyval) :=
  os ← py_getitem fragment "operators"; py_list os.

Definition document_operators (doc : pyval) : result (list pyval) :=
  fs ← document_fragments doc; flat_mapM fragment_operators fs.

Definition operator_ids (operators : list pyval) : result (list pyval) :=
  mapM_result (fun o => py_getitem o "opId") operators.

(** Whether the caller's extra parameters bind [key]. *)
Definition supplies (parameters : option dict) (key : string) : bool :=
  match dict_get (or_empty parameters) key with
  | Some _ => true
  | None => false
  end.

(** Whether the caller's extra parameters bind a key that the views
    read as a child reference. *)
Definition supplies_child_key (parameters : option dict) : bool :=
  existsb (fun kv => str_in "CHILD" (str_upper (fst kv))) (or_empty parameters).

(** ** The remaining accessors of the views *)

(** [self.json['plan']['type']] *)
Definition MyriaPlan_type (self : MyriaPlan) : result pyval :=
  plan ← py_getitem (json self) "plan"; py_getitem plan "type".

Definition MyriaPlan_language (self : MyriaPlan) : result pyval :=
  py_getitem (json self) "language".

Definition MyriaPlan_profiling_mode (self : MyriaPlan) : result pyval :=
  py_getitem (json self) "profilingMode".

Definition MyriaPlan_text (self : MyriaPlan) : result pyval :=
  py_getitem (json self) "rawQuery".

Definition MyriaPlan_logicalRa (self : MyriaPlan) : result pyval :=
  py_getitem (json self) "logicalRa".

Definition MyriaOperator_name (self : MyriaOperator) : result pyval :=
  py_getitem (datum_value (operator_datum self)) "opName".

(** *** The dictionary interface of an operator

    The methods below act on the object [self.value] refers to.  Those
    that change it return its new content: the state that is passed on
    is the content of that one object, which every view of the operator
    shares. *)

(** [del d[key]] *)
Fixpoint dict_delitem (d : dict) (key : string) : option dict :=
  match d with
  | [] => None
  | (k, w) :: d' =>
      if String.eqb key k then Some d'
      else match dict_delitem d' key with
           | Some d'' => Some ((k, w) :: d'')
           | None => None
           end
  end.

(** [v[key] = x] for a string [key]: the new content of [v] *)
Definition py_setitem (v : pyval) (key : string) (x : pyval) : result pyval :=
  match v with
  | VDict d => Ok (VDict (dict_setitem d key x))
  | _ => Raise TypeError
  end.

(** [del v[key]] for a string [key]: the new content of [v] *)
Definition py_delitem (v : pyval) (key : string) : result pyval :=
  match v with
  | VDict d =>
      match dict_delitem d key with
      | Some d' => Ok (VDict d')
      | None => Raise (KeyError key)
      end
  | _ => Raise TypeError
  end.

(** [len(v)] *)
Definition py_len (v : pyval) : result nat :=
  match v with
  | VDict d => Ok (length d)
  | VList l => Ok (length l)
  | VStr s => Ok (String.length s)
  | _ => Raise TypeError
  end.

(** [self.value.add(key, value)] *)
Definition MyriaOperator_add (self : MyriaOperator) (key : string) (value : pyval)
  : result pyval :=
  m ← py_getattr (datum_value (operator_datum self)) "add";
  py_call m [VStr key; value].

(** [self.value.keys()] *)
Definition MyriaOperator_keys (self : MyriaOperator) : result (list string) :=
  _ ← py_getattr (datum_value (operator_datum self)) "keys";
  match datum_value (operator_datum self) with
  | VDict d => Ok (fst <$> d)
  | _ => Raise (NotModelled "keys")
  end.

(** [self.value.values()] *)
Definition MyriaOperator_values (self : MyriaOperator) : result (list pyval) :=
  _ ← py_getattr (datum_value (operator_datum self)) "values";
  match datum_value (operator_datum self) with
  | VDict d => Ok (snd <$> d)
  | _ => Raise (NotModelled "values")
  end.

Definition MyriaOperator___len__ (self : MyriaOperator) : result nat :=
  py_len (datum_value (operator_datum self)).

(** [self.value.__iter__()]: the keys of a dict, the elements of a list *)
Definition MyriaOperator___iter__ (self : MyriaOperator) : gen pyval :=
  gen_of_result
    (_ ← py_getattr (datum_value (operator_datum self)) "__iter__";
     match datum_value (operator_datum self) with
     | VDict d => Ok (VStr <$> (fst <$> d))
     | VList l => Ok l
     | _ => Raise (NotModelled "__iter__")
     end).

(** [self.value[item] = value]: the new content of [self.value] *)
Definition MyriaOperator___setitem__
    (self : MyriaOperator) (item : string) (value : pyval) : result pyval :=
  py_setitem (datum_value (operator_datum self)) item value.

(** [del self.value[key]]: the new content of [self.value] *)
Definition MyriaOperator___delitem__ (self : MyriaOperator) (key : string)
  : result pyval :=
  py_delitem (datum_value (operator_datum self)) key.

(** The number an [int] or a [bool] stands for in a comparison. *)
Definition num (v : pyval) : option Z :=
  match v with
  | VInt z => Some z
  | VBool b => Some (Z.b2z b)
  | _ => None
  end.

(** * Vocabulary of the properties

    The values the builder is expected to produce, the data and views
    [find] is expected to produce for a document, and the inputs used
    as examples. *)

Section builder_definitions.
Variables (schema : Schema) (relation scan_type insert_type : pyval).
Variables (scan_parameters insert_parameters : option dict).

(** The scan operator built when the counter holds [c]. *)
Definition scan_at (c : Z) (datasource : pyval) : dict :=
  dict_update
    [("opId", VInt c);
     ("opType", py_or scan_type (VStr DEFAULT_SCAN_TYPE));
     ("schema", to_dict schema);
     ("source", datasource)]
    (or_empty scan_parameters).

(** The insert operator built after it. *)
Definition insert_at (c : Z) : dict :=
  dict_update
    [("opId", VInt (c + 1));
     ("opType", py_or insert_type (VStr DEFAULT_INSERT_TYPE));
     ("argChild", VInt c);
     ("argOverwriteTable", VBool true);
     ("relationKey", relation)]
    (or_empty insert_parameters).

Definition fragment_at (c : Z) (assignment : pyval * pyval) : pyval :=
  VDict [("overrideWorkers", VList [fst assignment]);
         ("operators", VList [VDict (scan_at c (snd assignment));
                              VDict (insert_at c)])].

Definition fragments_from (c : Z) (work : list (pyval * pyval)) : list pyval :=
  imap (fun k => fragment_at (c + 2 * Z.of_nat k)) work.

(** The operators of the fragments built from counter value [c] on. *)
Definition operators_from (c : Z) (work : list (pyval * pyval)) : list pyval :=
  mjoin (imap (fun k a => [VDict (scan_at (c + 2 * Z.of_nat k) (snd a));
                            VDict (insert_at (c + 2 * Z.of_nat k))]) work).

End builder_definitions.

(** A schema, a relation key and two work entries. *)
Definition schema0 : Schema :=
  {| to_dict := VDict [("columnNames", VList [VStr "x"]);
                       ("columnTypes", VList [VStr "LONG_TYPE"])] |}.

Definition relation0 : pyval :=
  VDict [("userName", VStr "public"); ("programName", VStr "adhoc");
         ("relationName", VStr "R")].

Definition work2 : list (pyval * pyval) :=
  [(VInt 1, VDict [("dataType", VStr "File"); ("filename", VStr "a")]);
   (VInt 2, VDict [("dataType", VStr "File"); ("filename", VStr "b")])].

(** The key has a substring that reads CHILD when case is ignored. *)
Definition key_mentions_child (key : string) : Prop :=
  exists pre mid post, key = (pre ++ mid ++ post)%string /\ str_upper mid = "CHILD".

(** The value passes [isinstance(_, int)]: an [int] or a [bool]. *)
Definition is_int_instance (v : pyval) : Prop :=
  (exists z, v = VInt z) \/ (exists b, v = VBool b).

(** The operators a fragment value holds, if it is an object with an
    [operators] array. *)
Definition fragment_operator_values (fragment : pyval) : option (list pyval) :=
  match fragment with
  | VDict fd =>
      match dict_get fd "operators" with
      | Some (VList os) => Some os
      | _ => None
      end
  | _ => None
  end.

(** The datum of the [operators] field of the fragment datum [f], and the
    data of its elements. *)
Definition operators_datum (f : DatumInContext) : DatumInContext :=
  Datum (VList (default [] (fragment_operator_values (datum_value f))))
        (Fields "operators") (Some f).

Definition operator_data (f : DatumInContext) : list DatumInContext :=
  imap (fun j o => Datum o (Index j) (Some (operators_datum f)))
       (default [] (fragment_operator_values (datum_value f))).

Section plan_view_definitions.
Variables (top pd : dict) (fragments : list pyval).

Definition root_datum : DatumInContext := Datum (VDict top) Root None.

Definition plan_datum : DatumInContext :=
  Datum (VDict pd) (Fields "plan") (Some root_datum).

Definition fragments_datum : DatumInContext :=
  Datum (VList fragments) (Fields "fragments") (Some plan_datum).

Definition fragment_data : list DatumInContext :=
  imap (fun i v => Datum v (Index i) (Some fragments_datum)) fragments.

Definition plan_view : MyriaPlan := {| json := VDict top |}.

Definition fragment_views : list MyriaFragment :=
  (fun f => {| fragment_datum := f; fragment_plan := plan_view |}) <$> fragment_data.

Definition operator_views_of (f : DatumInContext) : list MyriaOperator :=
  (fun o => {| operator_datum := o; operator_plan := plan_view |}) <$> operator_data f.

Definition operator_views : list MyriaOperator :=
  mjoin (operator_views_of <$> fragment_data).

End plan_view_definitions.

Definition has_opId (op : MyriaOperator) : Prop :=
  exists i, MyriaOperator_id op = Ok i.

(** [op.id], where it is defined. *)
Definition id_of (op : MyriaOperator) : pyval :=
  match MyriaOperator_id op with
  | Ok i => i
  | Raise _ => VNone
  end.

(** The values [op._child_ids] yields, for an operator that is an object. *)
Definition child_id_list (op : MyriaOperator) : list pyval :=
  match datum_value (operator_datum op) with
  | VDict d => snd <$> List.filter is_child_item d
  | _ => []
  end.

(** Some child of [q] has the id of [self]. *)
Definition children_include (q self : MyriaOperator) : Prop :=
  exists cs c i s,
    gen_list (MyriaOperator_children q) = Ok cs /\
    c ∈ cs /\
    MyriaOperator_id c = Ok i /\
    MyriaOperator_id self = Ok s /\
    py_eq s i = true.

Section plan_operators_definitions.
Variables (ops : list MyriaOperator).

(** The operators [q.children] yields. *)
Definition children_list (q : MyriaOperator) : list MyriaOperator :=
  List.filter (fun c => py_in (id_of c) (child_id_list q)) ops.

(** Whether [q] has a child with the id of [self]. *)
Definition references (self q : MyriaOperator) : bool :=
  existsb (fun c => py_eq (id_of self) (id_of c)) (children_list q).

End plan_operators_definitions.

Section built_plan_view_definitions.
Variables (schema : Schema) (relation scan_type insert_type : pyval).
Variables (scan_parameters insert_parameters : option dict).
Variables (work : list (pyval * pyval)) (text : pyval).

Local Abbreviation fragment_at' :=
  (fragment_at schema relation scan_type insert_type
     scan_parameters insert_parameters).
Local Abbreviation scan_at' := (scan_at schema scan_type scan_parameters).
Local Abbreviation insert_at' := (insert_at relation insert_type insert_parameters).

Definition built_fragments : list pyval :=
  fragments_from schema relation scan_type insert_type
    scan_parameters insert_parameters 0 work.

(** The document the builder returns, and the same under a [plan] key. *)
Definition built_document : dict :=
  [("fragments", VList built_fragments); ("logicalRa", text); ("rawQuery", text)].

Definition built_top : dict := [("plan", VDict built_document)].

Definition built_plan : MyriaPlan := plan_view built_top.

Definition built_context : DatumInContext :=
  fragments_datum built_top built_document built_fragments.

(** The datum of the fragment of work entry [k], and the views of its
    two operators. *)
Definition built_fragment_datum (k : nat) (a : pyval * pyval) : DatumInContext :=
  Datum (fragment_at' (2 * Z.of_nat k) a) (Index k) (Some built_context).

Definition scan_view (k : nat) (a : pyval * pyval) : MyriaOperator :=
  {| operator_datum :=
       Datum (VDict (scan_at' (2 * Z.of_nat k) (snd a))) (Index 0)
             (Some (operators_datum (built_fragment_datum k a)));
     operator_plan := built_plan |}.

Definition insert_view (k : nat) (a : pyval * pyval) : MyriaOperator :=
  {| operator_datum :=
       Datum (VDict (insert_at' (2 * Z.of_nat k))) (Index 1)
             (Some (operators_datum (built_fragment_datum k a)));
     operator_plan := built_plan |}.

End built_plan_view_definitions.

(** An operator without an [opName]. *)
Definition operator0 : MyriaOperator :=
  {| operator_datum := wrap (VDict [("opId", VInt 0); ("opType", VStr "FileScan")]);
     operator_plan := {| json := VNone |} |}.

(** A plan in which two operators name operator 0 as their child. *)
Definition plan1 : MyriaPlan :=
  {| json :=
       VDict [("plan",
               VDict [("fragments",
                       VList [VDict [("overrideWorkers", VList [VInt 1]);
                                     ("operators",
                                      VList [VDict [("opId", VInt 0)];
                                             VDict [("opId", VInt 1);
                                                    ("argChild", VInt 0)];
                                             VDict [("opId", VInt 2);
                                                    ("argChild1", VInt 0)]])]])])] |}.

Definition operators1 : list MyriaOperator :=
  match gen_list (MyriaPlan_operators plan1) with
  | Ok l => l
  | Raise _ => []
  end.

Definition first_operator1 : MyriaOperator :=
  match operators1 with
  | op :: _ => op
  | [] => operator0
  end.

(** An operator with two properties that refer to operator 0. *)
Definition operator_two_references : MyriaOperator :=
  {| operator_datum :=
       wrap (VDict [("opId", VInt 2); ("argChild1", VInt 0); ("argChild2", VInt 0)]);
     operator_plan := plan1 |}.

Definition second_operator1 : MyriaOperator :=
  match operators1 with
  | _ :: op :: _ => op
  | _ => operator0
  end.

(** * Properties *)

(** ** Dictionaries *)

Lemma dict_get_setitem_eq d key v : dict_get (dict_setitem d key v) key = Some v.
Proof.
  induction d as [|[k w] d IH]; simpl.
  - by rewrite String.eqb_refl.
  - destruct (String.eqb key k) eqn:E; simpl; rewrite E; [done | exact IH].
Qed.

Lemma dict_get_setitem_ne d key key' v :
  key <> key' -> dict_get (dict_setitem d key v) key' = dict_get d key'.
Proof.
  intros Hne. assert (String.eqb key' key = false) as Hb
    by by apply String.eqb_neq, not_eq_sym.
  induction d as [|[k w] d IH]; simpl.
  - by rewrite Hb.
  - destruct (String.eqb key k) eqn:E; simpl.
    + apply String.eqb_eq in E. subst k. by rewrite Hb.
    + by rewrite IH.
Qed.

Lemma dict_update_cons d k v e :
  dict_update d ((k, v) :: e) = dict_update (dict_setitem d k v) e.
Proof. reflexivity. Qed.

Lemma dict_get_update_None d e key :
  dict_get e key = None -> dict_get (dict_update d e) key = dict_get d key.
Proof.
  revert d. induction e as [|[k v] e IH]; intros d He; [done|].
  simpl in He. destruct (String.eqb key k) eqn:E; [done|].
  rewrite dict_update_cons, IH by done.
  apply dict_get_setitem_ne. intros ->. by rewrite String.eqb_refl in E.
Qed.

Lemma dict_get_None_not_key (e : dict) key :
  key ∉ fst <$> e -> dict_get e key = None.
Proof.
  induction e as [|[k v] e IH]; [done|]. simpl. intros Hin.
  destruct (String.eqb key k) eqn:E.
  - apply String.eqb_eq in E. subst. exfalso. apply Hin. left.
  - apply IH. intros ?. apply Hin. by right.
Qed.

Lemma dict_get_update_Some d e key v :
  dict_wf e -> dict_get e key = Some v -> dict_get (dict_update d e) key = Some v.
Proof.
  revert d. induction e as [|[k w] e IH]; intros d Hwf He; [done|].
  apply NoDup_cons in Hwf as [Hk Hwf]. simpl in He.
  rewrite dict_update_cons. destruct (String.eqb key k) eqn:E.
  - apply String.eqb_eq in E. simplify_eq.
    rewrite dict_get_update_None by by apply dict_get_None_not_key.
    apply dict_get_setitem_eq.
  - by apply IH.
Qed.

Lemma py_getitem_Some d key v :
  dict_get d key = Some v -> py_getitem (VDict d) key = Ok v.
Proof. intros H. simpl. by rewrite H. Qed.

Lemma py_getitem_None d key :
  dict_get d key = None -> py_getitem (VDict d) key = Raise (KeyError key).
Proof. intros H. simpl. by rewrite H. Qed.

Lemma filter_setitem_other (P : string * pyval -> bool) d key v :
  (forall w, P (key, w) = false) ->
  List.filter P (dict_setitem d key v) = List.filter P d.
Proof.
  intros HP. induction d as [|[k w] d IH]; simpl.
  - by rewrite HP.
  - destruct (String.eqb key k) eqn:E; simpl.
    + apply String.eqb_eq in E. subst k. by rewrite !HP.
    + by rewrite IH.
Qed.

Lemma filter_is_child_item_update d e :
  existsb (fun kv => str_in "CHILD" (str_upper (fst kv))) e = false ->
  List.filter is_child_item (dict_update d e) = List.filter is_child_item d.
Proof.
  revert d. induction e as [|[k v] e IH]; intros d He; [done|].
  simpl in He. apply orb_false_iff in He as [Hk He].
  rewrite dict_update_cons, IH by done.
  apply filter_setitem_other. intros w. unfold is_child_item. simpl. by rewrite Hk.
Qed.

(** Closed dictionaries: the keys are pairwise distinct literals. *)
Ltac solve_dict_wf :=
  unfold dict_wf; simpl;
  repeat (apply NoDup_cons_2;
          [let H := fresh in
           intros H;
           repeat (apply elem_of_cons in H as [H|H]; [discriminate H|]);
           by apply elem_of_nil in H|]);
  apply NoDup_nil_2.

Lemma or_empty_wf parameters d :
  parameters = Some d -> dict_wf d -> dict_wf (or_empty parameters).
Proof. intros -> Hd. destruct d; [constructor | done]. Qed.

Lemma or_empty_get d key : dict_get (or_empty (Some d)) key = dict_get d key.
Proof. by destruct d. Qed.

Lemma supplies_false parameters key :
  supplies parameters key = false -> dict_get (or_empty parameters) key = None.
Proof. unfold supplies. by destruct (dict_get _ _). Qed.

(** ** The builder, step by step *)

Section builder.
Variables (schema : Schema) (relation scan_type insert_type : pyval).
Variables (scan_parameters insert_parameters : option dict).

Local Abbreviation scan_at := (scan_at schema scan_type scan_parameters).
Local Abbreviation insert_at := (insert_at relation insert_type insert_parameters).
Local Abbreviation fragment_at :=
  (fragment_at schema relation scan_type insert_type
     scan_parameters insert_parameters).
Local Abbreviation fragments_from :=
  (fragments_from schema relation scan_type insert_type
     scan_parameters insert_parameters).
Local Abbreviation operators_from :=
  (operators_from schema relation scan_type insert_type
     scan_parameters insert_parameters).

Lemma increment_run (taskid : ref) (h : heap) (c : Z) :
  h !! taskid = Some [c] ->
  __increment taskid h = Ok (c, <[taskid := [c + 1]]> h).
Proof.
  intros Hc. unfold __increment, mbind, M_bind, list_getitem, list_setitem.
  rewrite Hc. simpl. rewrite Hc. simpl.
  rewrite list_lookup_insert_eq by by eapply lookup_lt_Some.
  simpl. unfold mret, M_ret. do 2 f_equal. lia.
Qed.

Lemma fragment_run (taskid : ref) (h : heap) (c : Z) assignment :
  h !! taskid = Some [c] ->
  _get_parallel_import_fragment taskid schema relation scan_type insert_type
    scan_parameters insert_parameters assignment h
  = Ok (fragment_at c assignment, <[taskid := [c + 2]]> h).
Proof.
  intros Hc. pose proof (lookup_lt_Some _ _ _ Hc) as Hlt.
  unfold _get_parallel_import_fragment, mbind, M_bind.
  rewrite (increment_run _ _ _ Hc).
  rewrite (increment_run taskid _ (c + 1)) by by apply list_lookup_insert_eq.
  rewrite list_insert_insert_eq.
  unfold list_getitem. rewrite list_lookup_insert_eq by done. simpl.
  unfold mret, M_ret, fragment_at, scan_at, insert_at.
  replace (c + 1 + 1) with (c + 2) by lia.
  replace (c + 2 - 2) with c by lia. done.
Qed.

Lemma py_map_fragments_run (taskid : ref) work : forall (h : heap) (c : Z),
  h !! taskid = Some [c] ->
  py_map (_get_parallel_import_fragment taskid schema relation scan_type
            insert_type scan_parameters insert_parameters) work h
  = Ok (fragments_from c work,
        <[taskid := [c + 2 * Z.of_nat (length work)]]> h).
Proof.
  induction work as [|a work IH]; intros h c Hc.
  - simpl. unfold mret, M_ret. rewrite Z.add_0_r, list_insert_id; done.
  - pose proof (lookup_lt_Some _ _ _ Hc) as Hlt.
    cbn [py_map]. unfold mbind, M_bind at 1.
    rewrite (fragment_run _ _ _ _ Hc).
    unfold mbind, M_bind at 1.
    rewrite (IH _ (c + 2)) by by apply list_lookup_insert_eq.
    unfold mret, M_ret. rewrite list_insert_insert_eq.
    unfold fragments_from. rewrite imap_cons. f_equal. f_equal.
    + f_equal; [by rewrite Z.add_0_r|].
      apply imap_ext. intros k x _. simpl. f_equal. lia.
    + do 2 f_equal. rewrite length_cons. lia.
Qed.

Lemma get_parallel_import_plan_run work text (h : heap) :
  get_parallel_import_plan schema work relation text scan_parameters
    insert_parameters scan_type insert_type h
  = Ok (VDict [("fragments", VList (fragments_from 0 work));
               ("logicalRa", text); ("rawQuery", text)],
        h ++ [[2 * Z.of_nat (length work)]]).
Proof.
  unfold get_parallel_import_plan, mbind, M_bind at 1. unfold new_list.
  unfold mbind, M_bind at 1.
  rewrite (py_map_fragments_run _ _ _ 0) by by apply list_lookup_middle.
  unfold mret, M_ret. do 2 f_equal.
  rewrite insert_app_r_alt by done. by rewrite Nat.sub_diag.
Qed.

Lemma fragments_from_cons c a work :
  fragments_from c (a :: work) = fragment_at c a :: fragments_from (c + 2) work.
Proof.
  unfold fragments_from. rewrite imap_cons, Z.add_0_r. f_equal.
  apply imap_ext. intros k x _. simpl. f_equal. lia.
Qed.

Lemma operators_from_cons c a work :
  operators_from c (a :: work)
  = VDict (scan_at c (snd a)) :: VDict (insert_at c) :: operators_from (c + 2) work.
Proof.
  unfold operators_from. rewrite imap_cons, Z.add_0_r. simpl. do 3 f_equal.
  apply imap_ext. intros k x _. simpl.
  by replace (c + 2 + 2 * Z.of_nat k) with (c + 2 * Z.of_nat (S k)) by lia.
Qed.

Lemma length_fragments_from c work :
  length (fragments_from c work) = length work.
Proof. apply length_imap. Qed.

Lemma length_operators_from c work :
  length (operators_from c work) = (2 * length work)%nat.
Proof.
  revert c. induction work as [|a work IH]; intros c; [done|].
  rewrite operators_from_cons. simpl. rewrite IH. lia.
Qed.

Lemma lookup_fragments_from c work k :
  fragments_from c work !! k = fragment_at (c + 2 * Z.of_nat k) <$> work !! k.
Proof. unfold fragments_from. by rewrite list_lookup_imap. Qed.

Lemma lookup_operators_from c work k a :
  work !! k = Some a ->
  operators_from c work !! (2 * k)%nat
    = Some (VDict (scan_at (c + 2 * Z.of_nat k) (snd a))) /\
  operators_from c work !! (2 * k + 1)%nat
    = Some (VDict (insert_at (c + 2 * Z.of_nat k))).
Proof.
  revert c k. induction work as [|b work IH]; intros c k Hk; [done|].
  rewrite operators_from_cons. destruct k as [|k].
  - simpl in Hk. simplify_eq. by rewrite Z.add_0_r.
  - simpl in Hk. destruct (IH (c + 2) k Hk) as [Hs Hi].
    replace (2 * S k)%nat with (S (S (2 * k))) by lia.
    replace (S (S (2 * k)) + 1)%nat with (S (S (2 * k + 1))) by lia.
    replace (c + 2 * Z.of_nat (S k)) with (c + 2 + 2 * Z.of_nat k) by lia.
    by rewrite !lookup_cons.
Qed.

Lemma fragment_operators_at c a :
  fragment_operators (fragment_at c a)
  = Ok [VDict (scan_at c (snd a)); VDict (insert_at c)].
Proof. reflexivity. Qed.

Lemma document_operators_from c work :
  flat_mapM fragment_operators (fragments_from c work) = Ok (operators_from c work).
Proof.
  revert c. induction work as [|a work IH]; intros c; [done|].
  rewrite fragments_from_cons, operators_from_cons. cbn [flat_mapM].
  rewrite fragment_operators_at, IH. done.
Qed.

Lemma scan_at_opId c datasource :
  supplies scan_parameters "opId" = false ->
  dict_get (scan_at c datasource) "opId" = Some (VInt c).
Proof.
  intros H. unfold scan_at.
  by rewrite dict_get_update_None by by apply supplies_false.
Qed.

Lemma insert_at_opId c :
  supplies insert_parameters "opId" = false ->
  dict_get (insert_at c) "opId" = Some (VInt (c + 1)).
Proof.
  intros H. unfold insert_at.
  by rewrite dict_get_update_None by by apply supplies_false.
Qed.

Lemma insert_at_argChild c :
  supplies insert_parameters "argChild" = false ->
  dict_get (insert_at c) "argChild" = Some (VInt c).
Proof.
  intros H. unfold insert_at.
  by rewrite dict_get_update_None by by apply supplies_false.
Qed.

Lemma operator_ids_from c work :
  supplies scan_parameters "opId" = false ->
  supplies insert_parameters "opId" = false ->
  operator_ids (operators_from c work)
  = Ok ((fun i : nat => VInt (c + Z.of_nat i)) <$> seq 0 (2 * length work)).
Proof.
  intros Hs Hi. revert c. induction work as [|a work IH]; intros c; [done|].
  rewrite operators_from_cons. unfold operator_ids in *. cbn [mapM_result].
  rewrite (py_getitem_Some _ _ _ (scan_at_opId c _ Hs)).
  rewrite (py_getitem_Some _ _ _ (insert_at_opId c Hi)).
  rewrite IH. cbn [mbind result_bind].
  replace (2 * length (a :: work))%nat with (S (S (2 * length work))) by (simpl; lia).
  rewrite <- !cons_seq, <- !fmap_S_seq, !fmap_cons, Z.add_0_r, <- !list_fmap_compose.
  do 3 f_equal. apply list_fmap_ext. intros _ i _. simpl. f_equal. lia.
Qed.
End builder.

(** ** The builder's guarantees *)

Lemma document_fragments_built fragments text :
  document_fragments (VDict [("fragments", VList fragments);
                             ("logicalRa", text); ("rawQuery", text)])
  = Ok fragments.
Proof. reflexivity. Qed.

Lemma document_operators_built schema relation st it sp ip work text :
  document_operators
    (VDict [("fragments", VList (fragments_from schema relation st it sp ip 0 work));
            ("logicalRa", text); ("rawQuery", text)])
  = Ok (operators_from schema relation st it sp ip 0 work).
Proof.
  unfold document_operators. rewrite document_fragments_built.
  apply document_operators_from.
Qed.

(** C1.  With N work entries (and extra parameters that do not themselves
    bind [opId]), the plan has N fragments and 2N operators; read in
    order, the operator ids are 0, 1, ..., 2N-1, and the scan and the
    insert of fragment k carry 2k and 2k+1. *)
Theorem get_parallel_import_plan_operator_ids
    schema work relation text sp ip st it (h : heap) :
  supplies sp "opId" = false ->
  supplies ip "opId" = false ->
  exists doc h' fragments operators,
    get_parallel_import_plan schema work relation text sp ip st it h = Ok (doc, h') /\
    document_fragments doc = Ok fragments /\
    length fragments = length work /\
    document_operators doc = Ok operators /\
    length operators = (2 * length work)%nat /\
    operator_ids operators
      = Ok ((fun i : nat => VInt (Z.of_nat i)) <$> seq 0 (2 * length work)) /\
    forall (k : nat) fragment,
      fragments !! k = Some fragment ->
      (os ← fragment_operators fragment; operator_ids os)
      = Ok [VInt (2 * Z.of_nat k); VInt (2 * Z.of_nat k + 1)].
Proof.
  intros Hs Hi. eexists _, _, _, _.
  split; [apply get_parallel_import_plan_run|].
  split; [apply document_fragments_built|].
  split; [apply length_fragments_from|].
  split; [apply document_operators_built|].
  split; [apply length_operators_from|].
  split.
  - rewrite operator_ids_from by done. f_equal.
  - intros k fragment Hk. rewrite lookup_fragments_from in Hk.
    destruct (work !! k) as [a|]; [|done]. simpl in Hk. simplify_eq.
    rewrite fragment_operators_at. cbn [mbind result_bind operator_ids mapM_result].
    rewrite (py_getitem_Some _ _ _ (scan_at_opId _ _ _ _ _ Hs)).
    rewrite (py_getitem_Some _ _ _ (insert_at_opId _ _ _ _ Hi)).
    done.
Qed.

Lemma get_parallel_import_plan_operator_ids_witness :
  exists doc h' fragments operators,
    get_parallel_import_plan schema0 work2 relation0 (VStr "")
      (Some [("delimiter", VStr ",")]) None VNone VNone [] = Ok (doc, h') /\
    document_fragments doc = Ok fragments /\
    length fragments = length work2 /\
    document_operators doc = Ok operators /\
    length operators = (2 * length work2)%nat /\
    operator_ids operators
      = Ok ((fun i : nat => VInt (Z.of_nat i)) <$> seq 0 (2 * length work2)) /\
    forall (k : nat) fragment,
      fragments !! k = Some fragment ->
      (os ← fragment_operators fragment; operator_ids os)
      = Ok [VInt (2 * Z.of_nat k); VInt (2 * Z.of_nat k + 1)].
Proof.
  apply (get_parallel_import_plan_operator_ids schema0 work2 relation0 (VStr "")
           (Some [("delimiter", VStr ",")]) None VNone VNone []); reflexivity.
Defined.

(** C2.  In every fragment the insert operator's [argChild] is the
    [opId] of the scan operator of that fragment, the two being the
    fragment's operators (for extra parameters that bind neither the
    scan's [opId] nor the insert's [argChild]). *)
Theorem insert_argChild_is_scan_opId
    schema work relation text sp ip st it (h : heap) :
  supplies sp "opId" = false ->
  supplies ip "argChild" = false ->
  exists doc h' fragments,
    get_parallel_import_plan schema work relation text sp ip st it h = Ok (doc, h') /\
    document_fragments doc = Ok fragments /\
    length fragments = length work /\
    forall (k : nat) fragment,
      fragments !! k = Some fragment ->
      exists scan insert,
        fragment_operators fragment = Ok [scan; insert] /\
        py_getitem scan "opId" = Ok (VInt (2 * Z.of_nat k)) /\
        py_getitem insert "argChild" = Ok (VInt (2 * Z.of_nat k)).
Proof.
  intros Hs Hi. eexists _, _, _.
  split; [apply get_parallel_import_plan_run|].
  split; [apply document_fragments_built|].
  split; [apply length_fragments_from|].
  intros k fragment Hk. rewrite lookup_fragments_from in Hk.
  destruct (work !! k) as [a|]; [|done]. simpl in Hk. simplify_eq.
  eexists _, _. split; [apply fragment_operators_at|]. split.
  - apply py_getitem_Some. by rewrite scan_at_opId.
  - apply py_getitem_Some. by rewrite insert_at_argChild.
Qed.

Lemma insert_argChild_is_scan_opId_witness :
  exists doc h' fragments,
    get_parallel_import_plan schema0 work2 relation0 (VStr "")
      None (Some [("argOverwriteTable", VBool false)]) VNone VNone [] = Ok (doc, h') /\
    document_fragments doc = Ok fragments /\
    length fragments = length work2 /\
    forall (k : nat) fragment,
      fragments !! k = Some fragment ->
      exists scan insert,
        fragment_operators fragment = Ok [scan; insert] /\
        py_getitem scan "opId" = Ok (VInt (2 * Z.of_nat k)) /\
        py_getitem insert "argChild" = Ok (VInt (2 * Z.of_nat k)).
Proof.
  apply (insert_argChild_is_scan_opId schema0 work2 relation0 (VStr "")
           None (Some [("argOverwriteTable", VBool false)]) VNone VNone []);
    reflexivity.
Defined.

(** C6, as stated, fails: for the single work entry below the insert
    operator has [opId] 1 and [argChild] 0, which is not 1 - 2. *)
Lemma argChild_is_not_insert_opId_minus_2 :
  exists doc h' scan insert,
    get_parallel_import_plan schema0 [(VInt 1, VStr "a")] relation0 (VStr "")
      None None VNone VNone [] = Ok (doc, h') /\
    document_operators doc = Ok [scan; insert] /\
    py_getitem insert "opId" = Ok (VInt 1) /\
    py_getitem insert "argChild" = Ok (VInt 0) /\
    py_getitem insert "argChild" <> Ok (VInt (1 - 2)).
Proof. eexists _, _, _, _. repeat split. discriminate. Qed.

(** C6, amended.  A call of [_get_parallel_import_fragment] that finds
    the counter at [c] leaves it at [c + 2]; the insert operator has the
    second allocated id, [c + 1], and its [argChild] is the counter's
    value after that allocation minus 2, that is its own id minus 1,
    the id of the scan operator of the fragment. *)
Theorem fragment_argChild_from_counter
    (taskid : ref) schema relation st it sp ip assignment (h : heap) (c : Z) :
  h !! taskid = Some [c] ->
  supplies sp "opId" = false ->
  supplies ip "opId" = false ->
  supplies ip "argChild" = false ->
  exists fragment h' scan insert counter i,
    _get_parallel_import_fragment taskid schema relation st it sp ip assignment h
      = Ok (fragment, h') /\
    fragment_operators fragment = Ok [scan; insert] /\
    h' !! taskid = Some [counter] /\
    counter = c + 2 /\
    py_getitem insert "opId" = Ok (VInt i) /\
    i = c + 1 /\
    py_getitem insert "argChild" = Ok (VInt (counter - 2)) /\
    py_getitem insert "argChild" = Ok (VInt (i - 1)) /\
    py_getitem scan "opId" = Ok (VInt (i - 1)).
Proof.
  intros Hc Hs Hi Ha. eexists _, _, _, _, _, _.
  split; [by apply fragment_run|].
  split; [apply fragment_operators_at|].
  split; [apply list_lookup_insert_eq; by eapply lookup_lt_Some|].
  split; [done|].
  split; [apply py_getitem_Some; by rewrite insert_at_opId|].
  split; [done|].
  replace (c + 2 - 2) with c by lia. replace (c + 1 - 1) with c by lia.
  split; [apply py_getitem_Some; by rewrite insert_at_argChild|].
  split; [apply py_getitem_Some; by rewrite insert_at_argChild|].
  apply py_getitem_Some. by rewrite scan_at_opId.
Qed.

Lemma fragment_argChild_from_counter_witness :
  exists fragment h' scan insert counter i,
    _get_parallel_import_fragment 1%nat schema0 relation0 VNone VNone None None
      (VInt 7, VStr "a") [[5]; [4]] = Ok (fragment, h') /\
    fragment_operators fragment = Ok [scan; insert] /\
    h' !! 1%nat = Some [counter] /\
    counter = 4 + 2 /\
    py_getitem insert "opId" = Ok (VInt i) /\
    i = 4 + 1 /\
    py_getitem insert "argChild" = Ok (VInt (counter - 2)) /\
    py_getitem insert "argChild" = Ok (VInt (i - 1)) /\
    py_getitem scan "opId" = Ok (VInt (i - 1)).
Proof.
  apply (fragment_argChild_from_counter 1%nat schema0 relation0 VNone VNone
           None None (VInt 7, VStr "a") [[5]; [4]] 4); reflexivity.
Defined.

(** C7.  The builder accepts any extra parameters and overlays them last
    onto the properties it computed: in the emitted operator every key
    they bind has the caller's value, [opId] and [opType] included, and
    every key they do not bind has the computed value.  With
    [scan_parameters = {'opType': 'HdfsScan'}] every scan operator has
    [opType] ['HdfsScan'] and keeps its computed [opId], [schema] and
    [source]. *)
Theorem parameters_override_computed_fields
    schema work relation text sp ip st it (h : heap) :
  exists doc h' fragments,
    get_parallel_import_plan schema work relation text sp ip st it h = Ok (doc, h') /\
    document_fragments doc = Ok fragments /\
    length fragments = length work /\
    forall (k : nat) worker_id datasource,
      work !! k = Some (worker_id, datasource) ->
      exists fragment scan insert,
        fragments !! k = Some fragment /\
        fragment_operators fragment = Ok [VDict scan; VDict insert] /\
        let computed_scan :=
          [("opId", VInt (2 * Z.of_nat k));
           ("opType", py_or st (VStr "FileScan"));
           ("schema", to_dict schema);
           ("source", datasource)] in
        let computed_insert :=
          [("opId", VInt (2 * Z.of_nat k + 1));
           ("opType", py_or it (VStr "DbInsert"));
           ("argChild", VInt (2 * Z.of_nat k));
           ("argOverwriteTable", VBool true);
           ("relationKey", relation)] in
        (forall d key v,
            sp = Some d -> dict_wf d -> dict_get d key = Some v ->
            dict_get scan key = Some v) /\
        (forall d key v,
            ip = Some d -> dict_wf d -> dict_get d key = Some v ->
            dict_get insert key = Some v) /\
        (forall key,
            supplies sp key = false ->
            dict_get scan key = dict_get computed_scan key) /\
        (forall key,
            supplies ip key = false ->
            dict_get insert key = dict_get computed_insert key) /\
        (sp = Some [("opType", VStr "HdfsScan")] ->
         py_getitem (VDict scan) "opType" = Ok (VStr "HdfsScan") /\
         py_getitem (VDict scan) "opId" = Ok (VInt (2 * Z.of_nat k)) /\
         py_getitem (VDict scan) "schema" = Ok (to_dict schema) /\
         py_getitem (VDict scan) "source" = Ok datasource).
Proof.
  eexists _, _, _.
  split; [apply get_parallel_import_plan_run|].
  split; [apply document_fragments_built|].
  split; [apply length_fragments_from|].
  intros k worker_id datasource Hk.
  eexists _, _, _. rewrite lookup_fragments_from, Hk.
  split; [reflexivity|]. split; [apply fragment_operators_at|].
  cbn zeta. cbn [snd]. rewrite Z.add_0_l.
  split; [|split; [|split; [|split]]].
  - intros d key v -> Hwf Hget. apply dict_get_update_Some.
    + by eapply or_empty_wf.
    + by rewrite or_empty_get.
  - intros d key v -> Hwf Hget. apply dict_get_update_Some.
    + by eapply or_empty_wf.
    + by rewrite or_empty_get.
  - intros key Hkey. by apply dict_get_update_None, supplies_false.
  - intros key Hkey. by apply dict_get_update_None, supplies_false.
  - intros ->. by repeat split.
Qed.

Lemma parameters_override_computed_fields_witness :
  exists fragment scan insert,
    fragments_from schema0 relation0 VNone VNone
      (Some [("opType", VStr "HdfsScan"); ("opId", VInt 7)])
      (Some [("opId", VStr "last")]) 0 work2 !! 1%nat = Some fragment /\
    fragment_operators fragment = Ok [VDict scan; VDict insert] /\
    dict_get scan "opId" = Some (VInt 7) /\
    dict_get scan "opType" = Some (VStr "HdfsScan") /\
    dict_get scan "source"
      = Some (VDict [("dataType", VStr "File"); ("filename", VStr "b")]) /\
    dict_get insert "opId" = Some (VStr "last") /\
    dict_get insert "argChild" = Some (VInt 2).
Proof.
  destruct (parameters_override_computed_fields schema0 work2 relation0 (VStr "")
              (Some [("opType", VStr "HdfsScan"); ("opId", VInt 7)])
              (Some [("opId", VStr "last")]) VNone VNone [])
    as (doc & h' & fragments & Hrun & Hfrags & _ & Hall).
  vm_compute in Hrun. injection Hrun as <- <-.
  vm_compute in Hfrags. injection Hfrags as <-.
  destruct (Hall 1%nat _ _ eq_refl)
    as (fragment & scan & insert & Hk & Hops & Hscan & Hinsert & Hscan' & Hinsert' & _).
  exists fragment, scan, insert. split; [exact Hk|]. split; [exact Hops|].
  assert (dict_wf [("opType", VStr "HdfsScan"); ("opId", VInt 7)]) as Hwf1.
  { solve_dict_wf. }
  assert (dict_wf [("opId", VStr "last")]) as Hwf2.
  { solve_dict_wf. }
  split; [exact (Hscan _ "opId" _ eq_refl Hwf1 eq_refl)|].
  split; [exact (Hscan _ "opType" _ eq_refl Hwf1 eq_refl)|].
  split; [exact (Hscan' "source" eq_refl)|].
  split; [exact (Hinsert _ "opId" _ eq_refl Hwf2 eq_refl)|].
  exact (Hinsert' "argChild" eq_refl).
Defined.

(** C8.  The fragment built for the work entry [(worker_id, datasource)]
    has [overrideWorkers] equal to [[worker_id]] and [operators] equal
    to the two-element list of its scan and its insert, in that order. *)
Theorem fragment_workers_and_operators
    schema work relation text sp ip st it (h : heap) :
  exists doc h' fragments,
    get_parallel_import_plan schema work relation text sp ip st it h = Ok (doc, h') /\
    document_fragments doc = Ok fragments /\
    length fragments = length work /\
    forall (k : nat) worker_id datasource,
      work !! k = Some (worker_id, datasource) ->
      exists fragment,
        fragments !! k = Some fragment /\
        py_getitem fragment "overrideWorkers" = Ok (VList [worker_id]) /\
        py_getitem fragment "operators"
          = Ok (VList [VDict (scan_at schema st sp (2 * Z.of_nat k) datasource);
                       VDict (insert_at relation it ip (2 * Z.of_nat k))]).
Proof.
  eexists _, _, _.
  split; [apply get_parallel_import_plan_run|].
  split; [apply document_fragments_built|].
  split; [apply length_fragments_from|].
  intros k worker_id datasource Hk. rewrite lookup_fragments_from, Hk. simpl.
  eexists. split; [done|]. by split.
Qed.

Lemma fragment_workers_and_operators_witness :
  exists fragment,
    fragments_from schema0 relation0 VNone VNone None None 0 work2 !! 1%nat
      = Some fragment /\
    py_getitem fragment "overrideWorkers" = Ok (VList [VInt 2]) /\
    py_getitem fragment "operators"
      = Ok (VList [VDict (scan_at schema0 VNone None 2
                            (VDict [("dataType", VStr "File"); ("filename", VStr "b")]));
                   VDict (insert_at relation0 VNone None 2)]).
Proof.
  destruct (fragment_workers_and_operators schema0 work2 relation0 (VStr "")
              None None VNone VNone [])
    as (doc & h' & fragments & Hrun & Hfrags & _ & Hall).
  vm_compute in Hrun. injection Hrun as <- <-.
  vm_compute in Hfrags. injection Hfrags as <-.
  exact (Hall 1%nat _ _ eq_refl).
Defined.

(** C10.  From any two stores, whatever earlier calls left in them, the
    builder returns the same document for the same arguments; each call
    allocates its own counter and leaves the lists already in the store
    as they were, so a second call repeats the first; and the first
    operator of a built plan has id 0. *)
Theorem get_parallel_import_plan_history_independent
    schema work relation text sp ip st it (h1 h2 : heap) :
  exists doc,
    let build := get_parallel_import_plan schema work relation text sp ip st it in
    let n := 2 * Z.of_nat (length work) in
    build h1 = Ok (doc, h1 ++ [[n]]) /\
    build h2 = Ok (doc, h2 ++ [[n]]) /\
    (d1 ← build; d2 ← build; mret (d1, d2)) h1
      = Ok ((doc, doc), (h1 ++ [[n]]) ++ [[n]]) /\
    (forall a work',
        work = a :: work' -> supplies sp "opId" = false ->
        exists operators scan,
          document_operators doc = Ok operators /\
          operators !! 0%nat = Some scan /\
          py_getitem scan "opId" = Ok (VInt 0)).
Proof.
  eexists. cbn zeta.
  split; [apply get_parallel_import_plan_run|].
  split; [apply get_parallel_import_plan_run|].
  split.
  - unfold mbind at 1, M_bind. rewrite get_parallel_import_plan_run.
    unfold mbind at 1, M_bind. rewrite get_parallel_import_plan_run. done.
  - intros a work' -> Hs. eexists _, _.
    split; [apply document_operators_built|].
    rewrite operators_from_cons. split; [done|].
    apply py_getitem_Some. by rewrite scan_at_opId.
Qed.

Lemma get_parallel_import_plan_history_independent_witness :
  exists doc operators scan,
    get_parallel_import_plan schema0 work2 relation0 (VStr "")
      None None VNone VNone [[17]; [4]] = Ok (doc, [[17]; [4]; [4]]) /\
    get_parallel_import_plan schema0 work2 relation0 (VStr "")
      None None VNone VNone [] = Ok (doc, [[4]]) /\
    document_operators doc = Ok operators /\
    operators !! 0%nat = Some scan /\
    py_getitem scan "opId" = Ok (VInt 0).
Proof.
  destruct (get_parallel_import_plan_history_independent schema0 work2 relation0
              (VStr "") None None VNone VNone [[17]; [4]] [])
    as (doc & H1 & H2 & _ & H0).
  destruct (H0 _ _ eq_refl eq_refl) as (operators & scan & Hops & Hscan & Hid).
  exists doc, operators, scan. repeat split; assumption.
Defined.

(** ** Generators over lists *)

Lemma gen_of_list_inj {A} (l k : list A) : gen_of_list l = gen_of_list k -> l = k.
Proof.
  revert k. induction l as [|x l IH]; intros [|y k] H; simpl in H; try done.
  injection H as -> H. f_equal. by apply IH.
Qed.

Lemma gen_list_of_list {A} (l : list A) : gen_list (gen_of_list l) = Ok l.
Proof. induction l as [|x l IH]; [done|]. simpl. by rewrite IH. Qed.

Lemma gen_of_result_list {A} (r : result (list A)) (l : list A) :
  gen_of_result r = gen_of_list l -> r = Ok l.
Proof.
  destruct r as [l'|e]; simpl.
  - intros H. f_equal. by apply gen_of_list_inj.
  - by destruct l.
Qed.

Lemma gen_contains_of_list x (l : list pyval) :
  gen_contains x (gen_of_list l) = Ok (py_in x l).
Proof.
  induction l as [|e l IH]; [done|]. simpl.
  destruct (py_eq e x); [done | exact IH].
Qed.

Lemma gen_filter_of_list {A} (c : A -> result bool) (b : A -> bool) (l : list A) :
  (forall x, x ∈ l -> c x = Ok (b x)) ->
  gen_filter c (gen_of_list l) = gen_of_list (List.filter b l).
Proof.
  induction l as [|x l IH]; intros Hc; [done|]. simpl.
  rewrite (Hc x) by left. rewrite IH by (intros y Hy; apply Hc; by right).
  by destruct (b x).
Qed.

Lemma gen_app_Stop {A} (g : gen A) : gen_app Stop g = g.
Proof. reflexivity. Qed.

(** [next] of a nested generator expression whose inner loop yields the
    outer element, if at all. *)
Lemma gen_next_bind_find {A} (k : A -> gen A) (P : A -> bool) (l : list A) :
  (forall x, x ∈ l ->
     (P x = true /\ exists rest, k x = Yield x rest) \/ (P x = false /\ k x = Stop)) ->
  gen_next (gen_bind (gen_of_list l) k) = Ok (List.find P l).
Proof.
  induction l as [|x l IH]; intros Hk; [done|]. simpl.
  destruct (Hk x) as [[HP [rest Hx]]|[HP Hx]]; [left| |]; rewrite Hx, HP.
  - done.
  - simpl. apply IH. intros y Hy. apply Hk. by right.
Qed.

Lemma gen_bind_yield_or_stop {A B} (l : list A) (t : A -> bool) (y : B) :
  gen_bind (gen_of_list l) (fun a => if t a then Yield y Stop else Stop)
  = gen_of_list ((fun _ => y) <$> List.filter t l).
Proof.
  induction l as [|a l IH]; [done|]. simpl. rewrite IH. by destruct (t a).
Qed.

Lemma find_first {A} (P : A -> bool) (l pre post : list A) (x : A) :
  l = pre ++ x :: post ->
  (forall q, q ∈ pre -> P q = false) -> P x = true ->
  List.find P l = Some x.
Proof.
  intros -> Hpre Hx. induction pre as [|q pre IH]; simpl.
  - by rewrite Hx.
  - rewrite (Hpre q) by left. apply IH. intros r Hr. apply Hpre. by right.
Qed.

Lemma find_none_all {A} (P : A -> bool) (l : list A) :
  (forall q, q ∈ l -> P q = false) -> List.find P l = None.
Proof.
  intros Hl. induction l as [|q l IH]; [done|]. simpl.
  rewrite (Hl q) by left. apply IH. intros r Hr. apply Hl. by right.
Qed.

Lemma find_Some_split {A} (P : A -> bool) (l : list A) (x : A) :
  List.find P l = Some x ->
  exists pre post, l = pre ++ x :: post /\ P x = true /\
                   forall q, q ∈ pre -> P q = false.
Proof.
  induction l as [|y l IH]; [done|]. simpl. destruct (P y) eqn:Hy.
  - intros [= ->]. exists [], l. split; [done|]. split; [done|].
    intros q Hq. by apply elem_of_nil in Hq.
  - intros Hf. destruct (IH Hf) as (pre & post & -> & Hx & Hpre).
    exists (y :: pre), post. split; [done|]. split; [done|].
    intros q [->|Hq]%elem_of_cons; [done | by apply Hpre].
Qed.

Lemma find_None_all {A} (P : A -> bool) (l : list A) :
  List.find P l = None -> forall q, q ∈ l -> P q = false.
Proof.
  induction l as [|y l IH]; intros Hf q Hq; [by apply elem_of_nil in Hq|].
  simpl in Hf. destruct (P y) eqn:Hy; [done|].
  apply elem_of_cons in Hq as [->|Hq]; [done | by apply IH].
Qed.

(** ** Strings *)

Lemma prefix_true_iff (sub s : string) :
  String.prefix sub s = true <-> exists post, s = (sub ++ post)%string.
Proof.
  revert s. induction sub as [|c sub IH]; intros s.
  - split; [intros _; by exists s | by destruct s].
  - destruct s as [|c' s]; simpl; [split; [done | by intros [? ?]]|].
    destruct (Ascii.ascii_dec c c') as [->|Hne].
    + rewrite IH. split; intros [post H]; exists post; simplify_eq; done.
    + split; [done|]. intros [post H]. simplify_eq.
Qed.

Lemma str_in_true_iff (sub s : string) :
  str_in sub s = true <-> exists pre post, s = (pre ++ sub ++ post)%string.
Proof.
  induction s as [|c s IH]; cbn [str_in].
  - rewrite orb_false_r, prefix_true_iff. split.
    + intros [post H]. by exists EmptyString, post.
    + intros ([|? pre] & post & H); [by exists post | done].
  - rewrite orb_true_iff, prefix_true_iff, IH. split.
    + intros [[post H]|(pre & post & H)].
      * by exists EmptyString, post.
      * exists (String c pre), post. simpl. by rewrite H.
    + intros ([|c' pre] & post & H).
      * left. by exists post.
      * right. simpl in H. simplify_eq. by exists pre, post.
Qed.

Lemma str_upper_app (a b : string) :
  str_upper (a ++ b) = (str_upper a ++ str_upper b)%string.
Proof. induction a as [|c a IH]; [done|]. simpl. by rewrite IH. Qed.

Lemma str_upper_split (s a b : string) :
  str_upper s = (a ++ b)%string ->
  exists a' b', s = (a' ++ b')%string /\ str_upper a' = a /\ str_upper b' = b.
Proof.
  revert s. induction a as [|c a IH]; intros s H; simpl in H.
  - by exists EmptyString, s.
  - destruct s as [|c' s]; [done|]. simpl in H. injection H as Hc H.
    destruct (IH s H) as (a' & b' & -> & Ha & Hb).
    exists (String c' a'), b'. simpl. by rewrite Hc, Ha.
Qed.

Lemma child_key_iff (key : string) :
  str_in "CHILD" (str_upper key) = true <-> key_mentions_child key.
Proof.
  rewrite str_in_true_iff. split.
  - intros (pre & post & H).
    apply str_upper_split in H as (pre' & rest & -> & Hpre & H).
    apply str_upper_split in H as (mid & post' & -> & Hmid & Hpost).
    by exists pre', mid, post'.
  - intros (pre & mid & post & -> & Hmid).
    exists (str_upper pre), (str_upper post).
    by rewrite !str_upper_app, Hmid.
Qed.

Lemma isinstance_int_iff v : isinstance_int v = true <-> is_int_instance v.
Proof.
  unfold is_int_instance. destruct v; simpl; split; try done; eauto;
    intros [[? ?]|[? ?]]; done.
Qed.

Lemma is_child_item_iff key v :
  is_child_item (key, v) = true <-> key_mentions_child key /\ is_int_instance v.
Proof.
  unfold is_child_item. simpl.
  by rewrite andb_true_iff, child_key_iff, isinstance_int_iff.
Qed.

(** ** The views of a document *)

Lemma flat_mapM_singletons {A B} (f : A -> result (list B)) (g : A -> B) (l : list A) :
  (forall x, x ∈ l -> f x = Ok [g x]) -> flat_mapM f l = Ok (g <$> l).
Proof.
  induction l as [|x l IH]; intros Hf; [done|]. cbn [flat_mapM].
  rewrite (Hf x) by left. rewrite IH by (intros y Hy; apply Hf; by right). done.
Qed.

Lemma flat_mapM_join {A B} (f : A -> result (list B)) (g : A -> list B) (l : list A) :
  (forall x, x ∈ l -> f x = Ok (g x)) -> flat_mapM f l = Ok (mjoin (g <$> l)).
Proof.
  induction l as [|x l IH]; intros Hf; [done|]. cbn [flat_mapM].
  rewrite (Hf x) by left. rewrite IH by (intros y Hy; apply Hf; by right). done.
Qed.

Lemma fmap_join {A B} (f : A -> B) (ls : list (list A)) :
  f <$> mjoin ls = mjoin (fmap f <$> ls).
Proof.
  induction ls as [|l ls IH]; [done|].
  change (f <$> l ++ mjoin ls = (f <$> l) ++ mjoin (fmap f <$> ls)).
  by rewrite fmap_app, IH.
Qed.

Lemma find_operators_field (f : DatumInContext) :
  is_Some (fragment_operator_values (datum_value f)) ->
  find (Fields "operators") f = Ok [operators_datum f].
Proof.
  intros [os Hos]. unfold operators_datum. rewrite Hos. simpl.
  unfold fields_find, fragment_operator_values in *.
  destruct (datum_value f) as [| | | | |fd]; try done.
  destruct (dict_get fd "operators") as [[| | | |os'|]|]; by simplify_eq.
Qed.

Lemma find_operators_slice (f : DatumInContext) :
  find Slice (operators_datum f) = Ok (operator_data f).
Proof. reflexivity. Qed.

Lemma find_Child (l r : JSONPath) (d : DatumInContext) :
  find (Child l r) d = (subs ← find l d; flat_mapM (find r) subs).
Proof. reflexivity. Qed.

Lemma find_fragment_operators (f : DatumInContext) :
  is_Some (fragment_operator_values (datum_value f)) ->
  find MyriaFragment_expressions_operators f = Ok (operator_data f).
Proof.
  intros Hf. unfold MyriaFragment_expressions_operators.
  rewrite !find_Child. change (find This f) with (Ok [f]).
  cbn [mbind result_bind flat_mapM]. rewrite find_operators_field by done.
  cbn [mbind result_bind flat_mapM app]. rewrite find_operators_slice.
  cbn [mbind result_bind]. by rewrite app_nil_r.
Qed.

Section plan_view.
Variables (top pd : dict) (fragments : list pyval).

Local Abbreviation root_datum := (root_datum top).
Local Abbreviation plan_datum := (plan_datum top pd).
Local Abbreviation fragments_datum := (fragments_datum top pd fragments).
Local Abbreviation fragment_data := (fragment_data top pd fragments).
Local Abbreviation plan_view := (plan_view top).
Local Abbreviation fragment_views := (fragment_views top pd fragments).
Local Abbreviation operator_views_of := (operator_views_of top).
Local Abbreviation operator_views := (operator_views top pd fragments).

Hypothesis Hplan : dict_get top "plan" = Some (VDict pd).
Hypothesis Hfragments : dict_get pd "fragments" = Some (VList fragments).
Hypothesis Hoperators :
  forall v, v ∈ fragments -> is_Some (fragment_operator_values v).

Lemma find_fragments :
  find MyriaPlan_expressions_fragments (wrap (VDict top)) = Ok fragment_data.
Proof using Hplan Hfragments.
  unfold MyriaPlan_expressions_fragments. cbn [find wrap root_find].
  cbn [mbind result_bind flat_mapM]. unfold fields_find at 2. cbn [datum_value].
  rewrite Hplan. cbn [mbind result_bind flat_mapM app].
  unfold fields_find. cbn [datum_value]. rewrite Hfragments.
  cbn [mbind result_bind flat_mapM app]. unfold slice_find. cbn [datum_value].
  cbn [mbind result_bind]. by rewrite app_nil_r.
Qed.

Lemma fragment_data_values : datum_value <$> fragment_data = fragments.
Proof.
  unfold fragment_data. rewrite fmap_imap.
  rewrite (imap_ext _ (const id)) by done.
  rewrite imap_const. apply list_fmap_id.
Qed.

Lemma fragment_data_operators f :
  f ∈ fragment_data -> is_Some (fragment_operator_values (datum_value f)).
Proof using Hoperators.
  intros Hf. apply Hoperators. rewrite <- fragment_data_values.
  apply list_elem_of_fmap. by exists f.
Qed.

Lemma find_operators :
  find MyriaPlan_expressions_operators (wrap (VDict top))
  = Ok (mjoin (operator_data <$> fragment_data)).
Proof using Hplan Hfragments Hoperators.
  unfold MyriaPlan_expressions_operators.
  change (Child (Child (Child Root (Fields "plan")) (Fields "fragments")) Slice)
    with MyriaPlan_expressions_fragments.
  rewrite (find_Child _ Slice), (find_Child _ (Fields "operators")).
  rewrite find_fragments. cbn [mbind result_bind].
  rewrite (flat_mapM_singletons _ operators_datum).
  2:{ intros f Hf. by apply find_operators_field, fragment_data_operators. }
  cbn [mbind result_bind].
  rewrite (flat_mapM_join _ (fun o => match datum_context o with
                                      | Some f => operator_data f
                                      | None => []
                                      end)).
  2:{ intros o (f & -> & Hf)%list_elem_of_fmap. apply find_operators_slice. }
  by rewrite <- list_fmap_compose.
Qed.

Lemma MyriaPlan_fragments_view :
  MyriaPlan_fragments plan_view = gen_of_list fragment_views.
Proof using Hplan Hfragments.
  unfold MyriaPlan_fragments. cbn [json plan_view]. by rewrite find_fragments.
Qed.

Lemma MyriaPlan_operators_view :
  MyriaPlan_operators plan_view = gen_of_list operator_views.
Proof using Hplan Hfragments Hoperators.
  unfold MyriaPlan_operators. cbn [json plan_view]. rewrite find_operators.
  cbn [mbind result_bind gen_of_result]. f_equal.
  unfold operator_views, operator_views_of.
  by rewrite fmap_join, <- list_fmap_compose.
Qed.

Lemma MyriaFragment_operators_view fv :
  fv ∈ fragment_views ->
  MyriaFragment_operators fv = gen_of_list (operator_views_of (fragment_datum fv)).
Proof using Hoperators.
  intros (f & -> & Hf)%list_elem_of_fmap. unfold MyriaFragment_operators.
  cbn [fragment_datum fragment_plan].
  by rewrite find_fragment_operators by by apply fragment_data_operators.
Qed.
End plan_view.

(** ** Children and parent in a plan whose operators all carry an id *)

Lemma has_opId_dict op i :
  MyriaOperator_id op = Ok i ->
  exists d, datum_value (operator_datum op) = VDict d /\ dict_get d "opId" = Some i.
Proof.
  unfold MyriaOperator_id, py_getitem.
  destruct (datum_value (operator_datum op)) as [| | | | |d]; try done.
  destruct (dict_get d "opId") eqn:E; [|done]. intros [= ->]. by exists d.
Qed.

Lemma id_of_Ok op i : MyriaOperator_id op = Ok i -> id_of op = i.
Proof. unfold id_of. by intros ->. Qed.

Lemma child_ids_dict op d :
  datum_value (operator_datum op) = VDict d ->
  MyriaOperator__child_ids op = gen_of_list (snd <$> List.filter is_child_item d).
Proof.
  intros Hd. unfold MyriaOperator__child_ids, MyriaOperator_items. by rewrite Hd.
Qed.

Lemma child_ids_has_opId op :
  has_opId op -> MyriaOperator__child_ids op = gen_of_list (child_id_list op).
Proof.
  intros [i (d & Hd & _)%has_opId_dict]. unfold child_id_list. rewrite Hd.
  by apply child_ids_dict.
Qed.

Lemma existsb_filter_cons {A} (t : A -> bool) (l : list A) :
  existsb t l = true -> exists x rest, List.filter t l = x :: rest.
Proof.
  induction l as [|a l IH]; [done|]. simpl. destruct (t a); [eauto | exact IH].
Qed.

Lemma existsb_filter_nil {A} (t : A -> bool) (l : list A) :
  existsb t l = false -> List.filter t l = [].
Proof.
  induction l as [|a l IH]; [done|]. simpl. destruct (t a); [done | exact IH].
Qed.

Lemma gen_bind_ext_list {A B} (k k' : A -> gen B) (l : list A) :
  (forall x, x ∈ l -> k x = k' x) ->
  gen_bind (gen_of_list l) k = gen_bind (gen_of_list l) k'.
Proof.
  induction l as [|a l IH]; intros Hk; [done|]. simpl.
  rewrite (Hk a) by left. by rewrite IH by (intros y Hy; apply Hk; by right).
Qed.

Lemma elem_of_List_filter {A} (t : A -> bool) (l : list A) (x : A) :
  x ∈ List.filter t l <-> x ∈ l /\ t x = true.
Proof. by rewrite !list_elem_of_In, filter_In. Qed.

Section plan_operators.
Variables (plan : MyriaPlan) (ops : list MyriaOperator).

Local Abbreviation children_list := (children_list ops).
Local Abbreviation references := (references ops).

Hypothesis Hops : MyriaPlan_operators plan = gen_of_list ops.
Hypothesis Hids : forall op, op ∈ ops -> has_opId op.

Lemma operator_plan_of op : op ∈ ops -> operator_plan op = plan.
Proof using Hops.
  clear Hids. intros Hop. unfold MyriaPlan_operators in Hops.
  apply gen_of_result_list in Hops.
  destruct (find _ _) as [os|e]; [|done]. cbn [mbind result_bind] in Hops.
  simplify_eq. by apply list_elem_of_fmap in Hop as (o & -> & _).
Qed.

Lemma MyriaOperator_children_list q :
  operator_plan q = plan -> has_opId q ->
  MyriaOperator_children q = gen_of_list (children_list q).
Proof using Hops Hids.
  intros Hq Hid. unfold MyriaOperator_children. rewrite Hq, Hops.
  apply gen_filter_of_list. intros c Hc. destruct (Hids c Hc) as [i Hi].
  rewrite Hi. cbn [mbind result_bind]. rewrite (id_of_Ok _ _ Hi).
  rewrite child_ids_has_opId by done. apply gen_contains_of_list.
Qed.

Lemma MyriaOperator_parent_find self :
  operator_plan self = plan -> has_opId self ->
  MyriaOperator_parent self = Ok (List.find (references self) ops).
Proof using Hops Hids.
  intros Hself [s Hs]. unfold MyriaOperator_parent. rewrite Hself, Hops.
  apply gen_next_bind_find. intros q Hq.
  rewrite MyriaOperator_children_list by auto using operator_plan_of.
  rewrite (gen_bind_ext_list _
             (fun c => if py_eq (id_of self) (id_of c) then Yield q Stop else Stop)).
  2:{ intros c [Hc _]%elem_of_List_filter. destruct (Hids c Hc) as [i Hi].
      rewrite Hs, Hi. cbn [mbind result_bind].
      by rewrite (id_of_Ok _ _ Hs), (id_of_Ok _ _ Hi). }
  rewrite gen_bind_yield_or_stop. unfold references.
  destruct (existsb _ (children_list q)) eqn:E.
  - left. split; [done|]. apply existsb_filter_cons in E as (x & rest & ->).
    by eexists.
  - right. split; [done|]. by rewrite (existsb_filter_nil _ _ E).
Qed.

Lemma references_iff self q :
  q ∈ ops -> has_opId self ->
  references self q = true <-> children_include q self.
Proof using Hops Hids.
  intros Hq [s Hs]. unfold references, children_include.
  rewrite MyriaOperator_children_list by auto using operator_plan_of.
  rewrite gen_list_of_list, existsb_exists. split.
  - intros (c & Hc & Heq). apply list_elem_of_In in Hc.
    assert (c ∈ ops) as Hc' by by apply elem_of_List_filter in Hc as [? _].
    destruct (Hids c Hc') as [i Hi].
    exists (children_list q), c, i, s. repeat split; try done.
    by rewrite (id_of_Ok _ _ Hs), (id_of_Ok _ _ Hi) in Heq.
  - intros (cs & c & i & s' & [= <-] & Hc & Hi & Hs' & Heq).
    exists c. split; [by apply list_elem_of_In|].
    by rewrite (id_of_Ok _ _ Hs'), (id_of_Ok _ _ Hi).
Qed.

Lemma MyriaOperator_parent_first self :
  operator_plan self = plan -> has_opId self ->
  exists r,
    MyriaOperator_parent self = Ok r /\
    match r with
    | Some p =>
        exists pre post,
          ops = pre ++ p :: post /\
          children_include p self /\
          forall q, q ∈ pre -> ~ children_include q self
    | None => forall q, q ∈ ops -> ~ children_include q self
    end.
Proof using Hops Hids.
  intros Hself Hid. eexists. split; [by apply MyriaOperator_parent_find|].
  destruct (List.find _ ops) as [p|] eqn:E.
  - apply find_Some_split in E as (pre & post & Hsplit & Hp & Hpre).
    exists pre, post. split; [done|].
    assert (forall q, q ∈ pre -> q ∈ ops) as Hin.
    { intros q Hq. rewrite Hsplit. apply elem_of_app. by left. }
    split.
    + apply references_iff; [|done|done].
      rewrite Hsplit. apply elem_of_app. right. left.
    + intros q Hq Hc. apply references_iff in Hc; [|by apply Hin|done].
      by rewrite (Hpre q Hq) in Hc.
  - intros q Hq Hc. apply references_iff in Hc; [|done|done].
    by rewrite (find_None_all _ _ E q Hq) in Hc.
Qed.
End plan_operators.

(** ** The views of a built plan held under a [plan] key *)

Lemma imap_imap {A B C} (f : nat -> A -> B) (g : nat -> B -> C) (l : list A) :
  imap g (imap f l) = imap (fun i x => g i (f i x)) l.
Proof.
  revert f g. induction l as [|x l IH]; intros f g; [done|].
  rewrite !imap_cons. f_equal. apply IH.
Qed.

Lemma imap_lookup_split {A B} (F : nat -> A -> B) (l : list A) (k : nat) (a : A) :
  l !! k = Some a ->
  exists post, imap F l = imap F (take k l) ++ F k a :: post.
Proof.
  intros Hk. exists (imap (fun n => F (k + S n)%nat) (drop (S k) l)).
  rewrite <- (take_drop_middle _ _ _ Hk) at 1.
  rewrite imap_app, imap_cons.
  rewrite length_take_le by (apply lookup_lt_Some in Hk; lia).
  by rewrite Nat.add_0_r.
Qed.

Section built_plan_view.
Variables (schema : Schema) (relation scan_type insert_type : pyval).
Variables (scan_parameters insert_parameters : option dict).
Variables (work : list (pyval * pyval)) (text : pyval).

Local Abbreviation built_fragments :=
  (built_fragments schema relation scan_type insert_type
     scan_parameters insert_parameters work).
Local Abbreviation built_document :=
  (built_document schema relation scan_type insert_type
     scan_parameters insert_parameters work text).
Local Abbreviation built_top :=
  (built_top schema relation scan_type insert_type
     scan_parameters insert_parameters work text).
Local Abbreviation built_plan :=
  (built_plan schema relation scan_type insert_type
     scan_parameters insert_parameters work text).
Local Abbreviation built_context :=
  (built_context schema relation scan_type insert_type
     scan_parameters insert_parameters work text).
Local Abbreviation built_fragment_datum :=
  (built_fragment_datum schema relation scan_type insert_type
     scan_parameters insert_parameters work text).
Local Abbreviation scan_view :=
  (scan_view schema relation scan_type insert_type
     scan_parameters insert_parameters work text).
Local Abbreviation insert_view :=
  (insert_view schema relation scan_type insert_type
     scan_parameters insert_parameters work text).

Local Abbreviation fragment_at' :=
  (fragment_at schema relation scan_type insert_type
     scan_parameters insert_parameters).
Local Abbreviation scan_at' := (scan_at schema scan_type scan_parameters).
Local Abbreviation insert_at' := (insert_at relation insert_type insert_parameters).

Lemma built_fragments_operators v :
  v ∈ built_fragments -> is_Some (fragment_operator_values v).
Proof.
  unfold built_fragments, fragments_from.
  intros (k & a & -> & _)%elem_of_lookup_imap. by eexists.
Qed.

Lemma built_fragment_data :
  fragment_data built_top built_document built_fragments
  = imap built_fragment_datum work.
Proof.
  unfold fragment_data. unfold built_fragments at 2. unfold fragments_from.
  rewrite imap_imap. apply imap_ext. intros k a _.
  unfold built_fragment_datum. by rewrite Z.add_0_l.
Qed.

Lemma built_operator_views_of k a :
  operator_views_of built_top (built_fragment_datum k a)
  = [scan_view k a; insert_view k a].
Proof. reflexivity. Qed.

Lemma built_operator_views :
  operator_views built_top built_document built_fragments
  = mjoin (imap (fun k a => [scan_view k a; insert_view k a]) work).
Proof.
  unfold operator_views. rewrite built_fragment_data, fmap_imap.
  f_equal.
Qed.

Lemma built_MyriaPlan_fragments :
  MyriaPlan_fragments built_plan
  = gen_of_list (fragment_views built_top built_document built_fragments).
Proof. by apply MyriaPlan_fragments_view. Qed.

Lemma built_MyriaPlan_operators :
  MyriaPlan_operators built_plan
  = gen_of_list (operator_views built_top built_document built_fragments).
Proof.
  apply MyriaPlan_operators_view; [done | done | apply built_fragments_operators].
Qed.

Lemma elem_of_built_operator_views op :
  op ∈ operator_views built_top built_document built_fragments <->
  exists k a, work !! k = Some a /\ (op = scan_view k a \/ op = insert_view k a).
Proof.
  rewrite built_operator_views, list_elem_of_join. split.
  - intros (l & Hop & (k & a & -> & Hk)%elem_of_lookup_imap).
    exists k, a. split; [done|].
    apply elem_of_cons in Hop as [->|Hop]; [by left|].
    apply list_elem_of_singleton in Hop as ->. by right.
  - intros (k & a & Hk & Hop). exists [scan_view k a; insert_view k a]. split.
    + destruct Hop as [-> | ->]; [left | right; left].
    + by apply (elem_of_lookup_imap_2 (fun k a => [scan_view k a; insert_view k a])).
Qed.

(** The operators before the insert of fragment [k] are those of the
    earlier fragments and the scan of fragment [k]. *)
Lemma built_operator_views_split k a :
  work !! k = Some a ->
  exists pre post,
    operator_views built_top built_document built_fragments
      = pre ++ insert_view k a :: post /\
    forall q, q ∈ pre ->
      (exists j b, (j <= k)%nat /\ q = scan_view j b) \/
      (exists j b, (j < k)%nat /\ q = insert_view j b).
Proof.
  intros Hk. rewrite built_operator_views.
  destruct (imap_lookup_split
              (fun k a => [scan_view k a; insert_view k a]) _ _ _ Hk)
    as [post ->].
  assert (length (take k work) = k) as Hlen.
  { apply length_take_le. apply lookup_lt_Some in Hk. lia. }
  rewrite join_app.
  eexists (_ ++ [scan_view k a]), _. split.
  - by rewrite <- app_assoc.
  - intros q [Hq|Hq]%elem_of_app.
    + apply list_elem_of_join in Hq as (l & Hq & (j & b & -> & Hj)%elem_of_lookup_imap).
      apply lookup_lt_Some in Hj. rewrite Hlen in Hj.
      apply elem_of_cons in Hq as [->|Hq]; [left; exists j, b; split; [lia | done]|].
      apply list_elem_of_singleton in Hq as ->. right. by exists j, b.
    + apply list_elem_of_singleton in Hq as ->. left. by exists k, a.
Qed.

Section ids.
Hypothesis Hscan_id : supplies scan_parameters "opId" = false.
Hypothesis Hinsert_id : supplies insert_parameters "opId" = false.

Lemma scan_view_id k a : MyriaOperator_id (scan_view k a) = Ok (VInt (2 * Z.of_nat k)).
Proof using Hscan_id. apply py_getitem_Some. by apply scan_at_opId. Qed.

Lemma insert_view_id k a :
  MyriaOperator_id (insert_view k a) = Ok (VInt (2 * Z.of_nat k + 1)).
Proof using Hinsert_id. apply py_getitem_Some. by apply insert_at_opId. Qed.

Lemma built_operators_have_ids op :
  op ∈ operator_views built_top built_document built_fragments -> has_opId op.
Proof using Hscan_id Hinsert_id.
  intros (k & a & _ & [-> | ->])%elem_of_built_operator_views.
  - eexists. apply scan_view_id.
  - eexists. apply insert_view_id.
Qed.

Lemma built_operators_int_ids op :
  op ∈ operator_views built_top built_document built_fragments ->
  exists n, id_of op = VInt n.
Proof using Hscan_id Hinsert_id.
  intros (k & a & _ & [-> | ->])%elem_of_built_operator_views.
  - eexists. apply id_of_Ok, scan_view_id.
  - eexists. apply id_of_Ok, insert_view_id.
Qed.
End ids.

Lemma filter_py_in_nil (ops : list MyriaOperator) :
  List.filter (fun c => py_in (id_of c) []) ops = [].
Proof. induction ops as [|c ops IH]; [done | exact IH]. Qed.

Section parents.
Hypothesis Hscan_id : supplies scan_parameters "opId" = false.
Hypothesis Hinsert_id : supplies insert_parameters "opId" = false.
Hypothesis Hscan_child : supplies_child_key scan_parameters = false.
Hypothesis Hinsert_child : supplies_child_key insert_parameters = false.

Local Abbreviation built_ops :=
  (operator_views built_top built_document built_fragments).

Lemma scan_view_child_ids k a : child_id_list (scan_view k a) = [].
Proof using Hscan_child.
  unfold child_id_list. cbn [scan_view operator_datum datum_value].
  unfold scan_at. by rewrite filter_is_child_item_update.
Qed.

Lemma insert_view_child_ids k a :
  child_id_list (insert_view k a) = [VInt (2 * Z.of_nat k)].
Proof using Hinsert_child.
  unfold child_id_list. cbn [insert_view operator_datum datum_value].
  unfold insert_at. by rewrite filter_is_child_item_update.
Qed.

Lemma references_scan self k a :
  references built_ops self (scan_view k a) = false.
Proof using Hscan_child.
  unfold references, children_list.
  by rewrite scan_view_child_ids, filter_py_in_nil.
Qed.

Lemma references_insert self j b n :
  id_of self = VInt n ->
  references built_ops self (insert_view j b) = true ->
  n = 2 * Z.of_nat j.
Proof using Hscan_id Hinsert_id Hinsert_child.
  intros Hself. unfold references, children_list.
  rewrite insert_view_child_ids, existsb_exists.
  intros (c & Hc & Heq). apply list_elem_of_In in Hc.
  apply elem_of_List_filter in Hc as [Hc Hin].
  destruct (built_operators_int_ids Hscan_id Hinsert_id c Hc) as [m Hm].
  rewrite Hself, Hm in Heq. rewrite Hm in Hin. simpl in Heq, Hin.
  rewrite orb_false_r in Hin. lia.
Qed.

Lemma references_insert_of_scan k a :
  work !! k = Some a ->
  references built_ops (scan_view k a) (insert_view k a) = true.
Proof using Hscan_id Hinsert_child.
  intros Hk. unfold references, children_list.
  rewrite insert_view_child_ids. apply existsb_exists.
  exists (scan_view k a). rewrite (id_of_Ok _ _ (scan_view_id Hscan_id k a)).
  split; [|simpl; lia].
  apply list_elem_of_In, elem_of_List_filter. split.
  - apply elem_of_built_operator_views. exists k, a. split; [done | by left].
  - rewrite (id_of_Ok _ _ (scan_view_id Hscan_id k a)). simpl.
    rewrite orb_false_r. lia.
Qed.

Lemma parent_of_scan_view k a :
  work !! k = Some a ->
  MyriaOperator_parent (scan_view k a) = Ok (Some (insert_view k a)).
Proof using Hscan_id Hinsert_id Hscan_child Hinsert_child.
  intros Hk.
  rewrite (MyriaOperator_parent_find built_plan built_ops);
    [|apply built_MyriaPlan_operators
     |apply (built_operators_have_ids Hscan_id Hinsert_id)
     |done
     |eexists; by apply scan_view_id].
  f_equal.
  destruct (built_operator_views_split k a Hk) as (pre & post & Hsplit & Hpre).
  apply (find_first _ _ _ _ _ Hsplit); [|by apply references_insert_of_scan].
  intros q [(j & b & Hj & ->)|(j & b & Hj & ->)]%Hpre.
  - apply references_scan.
  - apply not_true_is_false. intros Href.
    apply (references_insert _ _ _ (2 * Z.of_nat k)) in Href; [lia|].
    by apply id_of_Ok, scan_view_id.
Qed.

Lemma parent_of_insert_view k a :
  MyriaOperator_parent (insert_view k a) = Ok None.
Proof using Hscan_id Hinsert_id Hscan_child Hinsert_child.
  rewrite (MyriaOperator_parent_find built_plan built_ops);
    [|apply built_MyriaPlan_operators
     |apply (built_operators_have_ids Hscan_id Hinsert_id)
     |done
     |eexists; by apply insert_view_id].
  f_equal. apply find_none_all.
  intros q (j & b & _ & [-> | ->])%elem_of_built_operator_views.
  - apply references_scan.
  - apply not_true_is_false. intros Href.
    apply (references_insert _ _ _ (2 * Z.of_nat k + 1)) in Href; [lia|].
    by apply id_of_Ok, insert_view_id.
Qed.
End parents.
End built_plan_view.

(** ** The view layer: claims *)

Lemma mapM_result_fmap {A B C} (g : A -> B) (f : B -> result C) (l : list A) :
  mapM_result f (g <$> l) = mapM_result (fun x => f (g x)) l.
Proof.
  induction l as [|x l IH]; [done|].
  rewrite fmap_cons. cbn [mapM_result]. by rewrite IH.
Qed.

Lemma mapM_result_Ok {A B} (f : A -> result B) (g : A -> B) (l : list A) :
  (forall x, x ∈ l -> f x = Ok (g x)) -> mapM_result f l = Ok (g <$> l).
Proof.
  induction l as [|x l IH]; intros Hf; [done|]. cbn [mapM_result].
  rewrite (Hf x) by left. rewrite IH by (intros y Hy; apply Hf; by right). done.
Qed.

Lemma List_filter_sublist {A} (P : A -> bool) (l : list A) :
  List.filter P l `sublist_of` l.
Proof.
  induction l as [|x l IH]; simpl; [constructor|].
  destruct (P x); by constructor.
Qed.

Lemma dict_get_setitem_is_Some d key key' v :
  is_Some (dict_get d key') -> is_Some (dict_get (dict_setitem d key v) key').
Proof.
  intros Hd. destruct (String.eqb_spec key key') as [->|Hne].
  - rewrite dict_get_setitem_eq. by eexists.
  - by rewrite dict_get_setitem_ne.
Qed.

Lemma dict_get_update_is_Some d e key :
  is_Some (dict_get d key) -> is_Some (dict_get (dict_update d e) key).
Proof.
  revert d. induction e as [|[k v] e IH]; intros d Hd; [done|].
  rewrite dict_update_cons. by apply IH, dict_get_setitem_is_Some.
Qed.

Lemma filter_py_in_nil_const {A} (l : list A) :
  List.filter (fun _ => false) l = [].
Proof. induction l as [|x l IH]; [done | exact IH]. Qed.

(** C9.  For a key that the operator's mapping does not hold, the indexed
    lookup raises [KeyError]; the membership test does not answer:
    [self.value.contains] is looked up on a dict, which has no such
    attribute, and [AttributeError] is raised. *)
Theorem MyriaOperator_absent_key (self : MyriaOperator) (d : dict) (item : string) :
  datum_value (operator_datum self) = VDict d ->
  dict_get d item = None ->
  MyriaOperator___getitem__ self item = Raise (KeyError item) /\
  MyriaOperator___contains__ self item = Raise (AttributeError "contains").
Proof.
  intros Hd Hitem. unfold MyriaOperator___getitem__, MyriaOperator___contains__.
  rewrite Hd. split; [by apply py_getitem_None | reflexivity].
Qed.

Lemma MyriaOperator_absent_key_witness :
  MyriaOperator___getitem__ operator0 "opName" = Raise (KeyError "opName") /\
  MyriaOperator___contains__ operator0 "opName" = Raise (AttributeError "contains").
Proof.
  apply (MyriaOperator_absent_key operator0
           [("opId", VInt 0); ("opType", VStr "FileScan")] "opName");
    reflexivity.
Defined.

(** C3, as stated, fails: the builder's document has its fragments under
    the top-level key [fragments], the view looks under [plan], and so
    the view of a built document of two fragments has none. *)
Lemma view_of_built_document_is_empty :
  exists doc h' f1 f2,
    get_parallel_import_plan schema0 work2 relation0 (VStr "")
      None None VNone VNone [] = Ok (doc, h') /\
    document_fragments doc = Ok [f1; f2] /\
    gen_list (MyriaPlan_fragments {| json := doc |}) = Ok [] /\
    gen_list (MyriaPlan_operators {| json := doc |}) = Ok [].
Proof. eexists _, _, _, _. repeat split. Qed.

(** C3, amended.  The view of a document that holds the built document
    under the key [plan] enumerates the fragments and the operators the
    builder produced, in order: as many fragments, the same worker
    lists, the same operator ids, plan-wide and fragment by fragment.
    The view of the built document itself enumerates nothing. *)
Theorem built_plan_round_trip
    schema work relation text sp ip st it (h : heap) :
  exists doc h' fragments operators fvs ovs,
    get_parallel_import_plan schema work relation text sp ip st it h = Ok (doc, h') /\
    document_fragments doc = Ok fragments /\
    document_operators doc = Ok operators /\
    MyriaPlan_fragments {| json := VDict [("plan", doc)] |} = gen_of_list fvs /\
    length fvs = length fragments /\
    (fun fv => datum_value (fragment_datum fv)) <$> fvs = fragments /\
    mapM_result MyriaFragment_workers fvs
      = Ok ((fun a => VList [fst a]) <$> work) /\
    MyriaPlan_operators {| json := VDict [("plan", doc)] |} = gen_of_list ovs /\
    (fun ov => datum_value (operator_datum ov)) <$> ovs = operators /\
    mapM_result MyriaOperator_id ovs = operator_ids operators /\
    (forall fv, fv ∈ fvs ->
       exists os,
         MyriaFragment_operators fv = gen_of_list os /\
         fragment_operators (datum_value (fragment_datum fv))
           = Ok ((fun ov => datum_value (operator_datum ov)) <$> os)) /\
    MyriaPlan_fragments {| json := doc |} = Stop /\
    MyriaPlan_operators {| json := doc |} = Stop.
Proof.
  eexists _, _, _, _, _, _.
  split; [apply get_parallel_import_plan_run|].
  split; [apply document_fragments_built|].
  split; [apply document_operators_built|].
  split; [apply built_MyriaPlan_fragments|].
  assert ((fun fv => datum_value (fragment_datum fv)) <$>
            fragment_views (built_top schema relation st it sp ip work text)
              (built_document schema relation st it sp ip work text)
              (built_fragments schema relation st it sp ip work)
          = fragments_from schema relation st it sp ip 0 work) as Hvalues.
  { unfold fragment_views. rewrite <- list_fmap_compose.
    apply fragment_data_values. }
  split; [by rewrite <- Hvalues, length_fmap|].
  split; [exact Hvalues|].
  split.
  { unfold fragment_views. rewrite built_fragment_data, fmap_imap.
    rewrite (mapM_result_Ok _ (fun fv =>
               match MyriaFragment_workers fv with Ok w => w | Raise _ => VNone end)).
    - f_equal. rewrite fmap_imap.
      rewrite (imap_ext _ (const (fun a => VList [a.1]))) by done.
      by rewrite imap_const.
    - intros fv (k & a & -> & _)%elem_of_lookup_imap. reflexivity. }
  split; [apply built_MyriaPlan_operators|].
  assert ((fun ov => datum_value (operator_datum ov)) <$>
            operator_views (built_top schema relation st it sp ip work text)
              (built_document schema relation st it sp ip work text)
              (built_fragments schema relation st it sp ip work)
          = operators_from schema relation st it sp ip 0 work) as Hops.
  { rewrite built_operator_views, fmap_join, fmap_imap. unfold operators_from.
    f_equal. }
  split; [exact Hops|].
  split; [by rewrite <- Hops; unfold operator_ids; rewrite mapM_result_fmap|].
  split.
  { intros fv Hfv. eexists. split.
    - eapply MyriaFragment_operators_view; [|exact Hfv].
      apply built_fragments_operators.
    - unfold fragment_views in Hfv.
      apply list_elem_of_fmap in Hfv as (f & -> & Hf).
      rewrite built_fragment_data in Hf.
      by apply elem_of_lookup_imap in Hf as (k & a & -> & _). }
  split; reflexivity.
Qed.

Lemma built_plan_round_trip_witness :
  exists doc h' fvs fv os,
    get_parallel_import_plan schema0 work2 relation0 (VStr "")
      None None VNone VNone [] = Ok (doc, h') /\
    MyriaPlan_fragments {| json := VDict [("plan", doc)] |} = gen_of_list fvs /\
    fv ∈ fvs /\
    MyriaFragment_operators fv = gen_of_list os /\
    fragment_operators (datum_value (fragment_datum fv))
      = Ok ((fun ov => datum_value (operator_datum ov)) <$> os).
Proof.
  destruct (built_plan_round_trip schema0 work2 relation0 (VStr "")
              None None VNone VNone [])
    as (doc & h' & fragments & operators & fvs & ovs & Hrun & _ & _ & Hfvs &
        _ & _ & _ & _ & _ & _ & Hall & _).
  destruct fvs as [|fv fvs].
  { vm_compute in Hrun. injection Hrun as <- _. vm_compute in Hfvs. discriminate Hfvs. }
  destruct (Hall fv) as (os & Hos & Hvalues); [left|].
  exists doc, h', (fv :: fvs), fv, os.
  split; [exact Hrun|]. split; [exact Hfvs|]. split; [left|].
  split; [exact Hos | exact Hvalues].
Defined.

(** C4, as stated, fails: the view of the document the builder returns
    has no operators, since the view looks under [plan], so a view of
    the built scan operator over that document has [None] as its parent
    and not the insert operator of its fragment. *)
Lemma parent_of_built_scan_is_None :
  exists doc h' scan insert,
    get_parallel_import_plan schema0 [(VInt 1, VStr "a")] relation0 (VStr "")
      None None VNone VNone [] = Ok (doc, h') /\
    document_operators doc = Ok [scan; insert] /\
    gen_list (MyriaPlan_operators {| json := doc |}) = Ok [] /\
    MyriaOperator_parent
      {| operator_datum := wrap scan; operator_plan := {| json := doc |} |}
      = Ok None /\
    MyriaOperator_parent
      {| operator_datum := wrap scan; operator_plan := {| json := doc |} |}
      <> Ok (Some {| operator_datum := wrap insert;
                     operator_plan := {| json := doc |} |}).
Proof. eexists _, _, _, _. repeat split. discriminate. Qed.

(** C4, amended.  In a plan whose operators all carry an id, [parent]
    returns the first operator, in the order [plan.operators] enumerates
    them, one of whose children has the id of this operator, and [None]
    when there is no such operator.  In the view of a freshly built plan
    held under the key [plan] (with extra parameters that bind neither
    [opId] nor a key read as a child reference), each fragment has a
    scan and an insert operator, both with that fragment as their
    [fragment]; the parent of the scan is that insert, and the insert
    has no parent.  In the view of the built document itself there are
    no operators, and the parent of every operator view is [None]. *)
Theorem MyriaOperator_parent_first_claimant :
  (forall (plan : MyriaPlan) (ops : list MyriaOperator) (self : MyriaOperator),
      MyriaPlan_operators plan = gen_of_list ops ->
      (forall op, op ∈ ops -> has_opId op) ->
      operator_plan self = plan ->
      has_opId self ->
      exists r,
        MyriaOperator_parent self = Ok r /\
        match r with
        | Some p =>
            exists pre post,
              ops = pre ++ p :: post /\
              children_include p self /\
              forall q, q ∈ pre -> ~ children_include q self
        | None => forall q, q ∈ ops -> ~ children_include q self
        end) /\
  (forall schema work relation text sp ip st it (h : heap),
      supplies sp "opId" = false ->
      supplies ip "opId" = false ->
      supplies_child_key sp = false ->
      supplies_child_key ip = false ->
      exists doc h' fvs,
        get_parallel_import_plan schema work relation text sp ip st it h
          = Ok (doc, h') /\
        MyriaPlan_fragments {| json := VDict [("plan", doc)] |} = gen_of_list fvs /\
        length fvs = length work /\
        forall fv, fv ∈ fvs ->
          exists scan insert k datasource,
            MyriaFragment_operators fv = gen_of_list [scan; insert] /\
            datum_value (operator_datum scan)
              = VDict (scan_at schema st sp (2 * Z.of_nat k) datasource) /\
            datum_value (operator_datum insert)
              = VDict (insert_at relation it ip (2 * Z.of_nat k)) /\
            MyriaOperator_fragment scan = Ok (Some (fragment_datum fv)) /\
            MyriaOperator_fragment insert = Ok (Some (fragment_datum fv)) /\
            MyriaOperator_parent scan = Ok (Some insert) /\
            MyriaOperator_parent insert = Ok None) /\
  (forall schema work relation text sp ip st it (h : heap),
      exists doc h',
        get_parallel_import_plan schema work relation text sp ip st it h
          = Ok (doc, h') /\
        MyriaPlan_operators {| json := doc |} = Stop /\
        forall self : MyriaOperator,
          operator_plan self = {| json := doc |} ->
          MyriaOperator_parent self = Ok None).
Proof.
  split; [|split].
  - intros plan ops self Hops Hids Hself Hid.
    by apply (MyriaOperator_parent_first plan ops).
  - intros schema work relation text sp ip st it h Hs Hi Hsc Hic.
    eexists _, _, _.
    split; [apply get_parallel_import_plan_run|].
    split; [apply built_MyriaPlan_fragments|].
    split.
    { unfold fragment_views. by rewrite length_fmap, built_fragment_data, length_imap. }
    intros fv Hfv. unfold fragment_views in Hfv.
    apply list_elem_of_fmap in Hfv as (f & -> & Hf).
    rewrite built_fragment_data in Hf.
    apply elem_of_lookup_imap in Hf as (k & a & -> & Hk).
    exists (scan_view schema relation st it sp ip work text k a),
           (insert_view schema relation st it sp ip work text k a), k, (snd a).
    split; [reflexivity|]. split; [reflexivity|]. split; [reflexivity|].
    split; [reflexivity|]. split; [reflexivity|].
    split; [by apply parent_of_scan_view | by apply parent_of_insert_view].
  - intros schema work relation text sp ip st it h.
    eexists _, _. split; [apply get_parallel_import_plan_run|].
    split; [reflexivity|]. intros self Hself.
    unfold MyriaOperator_parent. by rewrite Hself.
Qed.

Lemma MyriaOperator_parent_first_claimant_witness :
  (exists r,
      MyriaOperator_parent first_operator1 = Ok r /\
      match r with
      | Some p =>
          exists pre post,
            operators1 = pre ++ p :: post /\
            children_include p first_operator1 /\
            forall q, q ∈ pre -> ~ children_include q first_operator1
      | None => forall q, q ∈ operators1 -> ~ children_include q first_operator1
      end) /\
  (exists doc h' fvs,
      get_parallel_import_plan schema0 work2 relation0 (VStr "")
        (Some [("delimiter", VStr ",")]) None VNone VNone [] = Ok (doc, h') /\
      MyriaPlan_fragments {| json := VDict [("plan", doc)] |} = gen_of_list fvs /\
      length fvs = length work2 /\
      forall fv, fv ∈ fvs ->
        exists scan insert k datasource,
          MyriaFragment_operators fv = gen_of_list [scan; insert] /\
          datum_value (operator_datum scan)
            = VDict (scan_at schema0 VNone (Some [("delimiter", VStr ",")])
                       (2 * Z.of_nat k) datasource) /\
          datum_value (operator_datum insert)
            = VDict (insert_at relation0 VNone None (2 * Z.of_nat k)) /\
          MyriaOperator_fragment scan = Ok (Some (fragment_datum fv)) /\
          MyriaOperator_fragment insert = Ok (Some (fragment_datum fv)) /\
          MyriaOperator_parent scan = Ok (Some insert) /\
          MyriaOperator_parent insert = Ok None) /\
  (exists doc h',
      get_parallel_import_plan schema0 work2 relation0 (VStr "")
        None None VNone VNone [] = Ok (doc, h') /\
      MyriaPlan_operators {| json := doc |} = Stop /\
      MyriaOperator_parent
        {| operator_datum := wrap (VDict (scan_at schema0 VNone None 0 (VStr "a")));
           operator_plan := {| json := doc |} |} = Ok None).
Proof.
  destruct MyriaOperator_parent_first_claimant as (Hfirst & Hbuilt & Hraw).
  split; [|split].
  - apply (Hfirst plan1 operators1 first_operator1).
    + vm_compute. reflexivity.
    + intros op Hop. vm_compute in Hop.
      repeat (apply elem_of_cons in Hop as [->|Hop]; [eexists; reflexivity|]).
      by apply elem_of_nil in Hop.
    + reflexivity.
    + eexists. reflexivity.
  - apply (Hbuilt schema0 work2 relation0 (VStr "")
             (Some [("delimiter", VStr ",")]) None VNone VNone []); reflexivity.
  - destruct (Hraw schema0 work2 relation0 (VStr "") None None VNone VNone [])
      as (doc & h' & Hrun & Hops & Hparent).
    exists doc, h'. split; [exact Hrun|]. split; [exact Hops|].
    by apply Hparent.
Defined.

(** C5, as stated, fails: [_child_ids] yields a value once for every
    property that refers to it, so an id can occur twice. *)
Lemma child_ids_repeat_an_id :
  gen_list (MyriaOperator__child_ids operator_two_references) = Ok [VInt 0; VInt 0] /\
  ~ NoDup [VInt 0; VInt 0].
Proof.
  split; [reflexivity|]. intros [Hin _]%NoDup_cons. apply Hin. left.
Qed.

(** C5, amended.  [_child_ids] yields the values of the properties whose
    key has CHILD as a substring when case is ignored and whose value is
    an instance of [int] (a [bool] is one), one value for each such
    property, so that an id referred to twice occurs twice; [children]
    yields the operators of the plan whose id is among these values.
    For the scan operator of a freshly built plan without extra scan
    parameters both are empty. *)
Theorem child_ids_selected_properties :
  (forall (self : MyriaOperator) (d : dict),
      datum_value (operator_datum self) = VDict d ->
      exists selected,
        MyriaOperator__child_ids self = gen_of_list (snd <$> selected) /\
        selected `sublist_of` d /\
        forall key v,
          (key, v) ∈ selected <->
          (key, v) ∈ d /\ key_mentions_child key /\ is_int_instance v) /\
  (forall (plan : MyriaPlan) (ops : list MyriaOperator) (self : MyriaOperator),
      MyriaPlan_operators plan = gen_of_list ops ->
      (forall op, op ∈ ops -> has_opId op) ->
      operator_plan self = plan ->
      has_opId self ->
      exists cs ids,
        MyriaOperator_children self = gen_of_list cs /\
        MyriaOperator__child_ids self = gen_of_list ids /\
        cs `sublist_of` ops /\
        forall c, c ∈ cs <->
                  c ∈ ops /\ exists i, MyriaOperator_id c = Ok i /\ py_in i ids = true) /\
  (forall schema work relation text ip st it (h : heap),
      exists doc h' fvs,
        get_parallel_import_plan schema work relation text None ip st it h
          = Ok (doc, h') /\
        MyriaPlan_fragments {| json := VDict [("plan", doc)] |} = gen_of_list fvs /\
        length fvs = length work /\
        forall fv, fv ∈ fvs ->
          exists scan insert k datasource,
            MyriaFragment_operators fv = gen_of_list [scan; insert] /\
            datum_value (operator_datum scan)
              = VDict (scan_at schema st None (2 * Z.of_nat k) datasource) /\
            MyriaOperator__child_ids scan = Stop /\
            MyriaOperator_children scan = Stop).
Proof.
  split; [|split].
  - intros self d Hd. exists (List.filter is_child_item d).
    split; [by apply child_ids_dict|].
    split; [apply List_filter_sublist|].
    intros key v. rewrite elem_of_List_filter, is_child_item_iff. tauto.
  - intros plan ops self Hops Hids Hself Hid.
    exists (children_list ops self), (child_id_list self).
    split; [by apply (MyriaOperator_children_list plan)|].
    split; [by apply child_ids_has_opId|].
    split; [apply List_filter_sublist|].
    intros c. unfold children_list. rewrite elem_of_List_filter. split.
    + intros [Hc Hin]. split; [done|]. destruct (Hids c Hc) as [i Hi].
      exists i. split; [done|]. by rewrite (id_of_Ok _ _ Hi) in Hin.
    + intros [Hc (i & Hi & Hin)]. split; [done|]. by rewrite (id_of_Ok _ _ Hi).
  - intros schema work relation text ip st it h.
    eexists _, _, _.
    split; [apply get_parallel_import_plan_run|].
    split; [apply built_MyriaPlan_fragments|].
    split.
    { unfold fragment_views. by rewrite length_fmap, built_fragment_data, length_imap. }
    intros fv Hfv. unfold fragment_views in Hfv.
    apply list_elem_of_fmap in Hfv as (f & -> & Hf).
    rewrite built_fragment_data in Hf.
    apply elem_of_lookup_imap in Hf as (k & a & -> & Hk).
    exists (scan_view schema relation st it None ip work text k a),
           (insert_view schema relation st it None ip work text k a), k, (snd a).
    split; [reflexivity|]. split; [reflexivity|]. split; [reflexivity|].
    unfold MyriaOperator_children. cbn [scan_view operator_plan].
    rewrite built_MyriaPlan_operators.
    rewrite (gen_filter_of_list _ (fun _ => false)).
    + by rewrite filter_py_in_nil_const.
    + intros c Hc. apply elem_of_built_operator_views in Hc as (j & b & _ & [-> | ->]).
      * reflexivity.
      * destruct (dict_get_update_is_Some
                    [("opId", VInt (2 * Z.of_nat j + 1));
                     ("opType", py_or it (VStr DEFAULT_INSERT_TYPE));
                     ("argChild", VInt (2 * Z.of_nat j));
                     ("argOverwriteTable", VBool true);
                     ("relationKey", relation)]
                    (or_empty ip) "opId") as [i Hi]; [by eexists|].
        unfold MyriaOperator_id. cbn [insert_view operator_datum datum_value].
        unfold insert_at. by rewrite (py_getitem_Some _ _ _ Hi).
Qed.

Lemma child_ids_selected_properties_witness :
  (exists selected,
      MyriaOperator__child_ids operator_two_references
        = gen_of_list (snd <$> selected) /\
      selected `sublist_of`
        [("opId", VInt 2); ("argChild1", VInt 0); ("argChild2", VInt 0)] /\
      forall key v,
        (key, v) ∈ selected <->
        (key, v) ∈ [("opId", VInt 2); ("argChild1", VInt 0); ("argChild2", VInt 0)] /\
        key_mentions_child key /\ is_int_instance v) /\
  (exists cs ids,
      MyriaOperator_children second_operator1 = gen_of_list cs /\
      MyriaOperator__child_ids second_operator1 = gen_of_list ids /\
      cs `sublist_of` operators1 /\
      forall c, c ∈ cs <->
                c ∈ operators1 /\
                exists i, MyriaOperator_id c = Ok i /\ py_in i ids = true) /\
  (exists doc h' fvs,
      get_parallel_import_plan schema0 work2 relation0 (VStr "")
        None (Some [("opId", VStr "x")]) VNone VNone [] = Ok (doc, h') /\
      MyriaPlan_fragments {| json := VDict [("plan", doc)] |} = gen_of_list fvs /\
      length fvs = length work2 /\
      forall fv, fv ∈ fvs ->
        exists scan insert k datasource,
          MyriaFragment_operators fv = gen_of_list [scan; insert] /\
          datum_value (operator_datum scan)
            = VDict (scan_at schema0 VNone None (2 * Z.of_nat k) datasource) /\
          MyriaOperator__child_ids scan = Stop /\
          MyriaOperator_children scan = Stop).
Proof.
  destruct child_ids_selected_properties as (Hids & Hchildren & Hscan).
  split; [|split].
  - apply (Hids operator_two_references). reflexivity.
  - apply (Hchildren plan1 operators1 second_operator1).
    + vm_compute. reflexivity.
    + intros op Hop. vm_compute in Hop.
      repeat (apply elem_of_cons in Hop as [->|Hop]; [eexists; reflexivity|]).
      by apply elem_of_nil in Hop.
    + reflexivity.
    + eexists. reflexivity.
  - apply (Hscan schema0 work2 relation0 (VStr "")
             (Some [("opId", VStr "x")]) VNone VNone []).
Defined.

(** * Further properties *)

(** ** Plan-wide and fragment-wise enumeration *)

Lemma flat_mapM_app {A B} (f : A -> result (list B)) (l1 l2 : list A) :
  flat_mapM f (l1 ++ l2)
  = (a ← flat_mapM f l1; b ← flat_mapM f l2; Ok (a ++ b)).
Proof.
  induction l1 as [|x l1 IH]; simpl.
  - by destruct (flat_mapM f l2).
  - destruct (f x) as [ys|e]; [|done]. cbn [mbind result_bind].
    rewrite IH. destruct (flat_mapM f l1) as [a|e]; [|done].
    cbn [mbind result_bind]. destruct (flat_mapM f l2) as [b|e]; [|done].
    cbn [mbind result_bind]. by rewrite app_assoc.
Qed.

Lemma flat_mapM_pure {A B} (g : A -> list B) (l : list A) :
  flat_mapM (fun x => Ok (g x)) l = Ok (mjoin (g <$> l)).
Proof. by apply flat_mapM_join. Qed.

Lemma flat_mapM_mjoin {A B C} (h : B -> result (list C)) (g : A -> list B) (l : list A) :
  flat_mapM h (mjoin (g <$> l)) = flat_mapM (fun x => flat_mapM h (g x)) l.
Proof.
  induction l as [|x l IH]; [done|].
  change (flat_mapM h (g x ++ mjoin (g <$> l))
          = (ys ← flat_mapM h (g x);
             zs ← flat_mapM (fun x => flat_mapM h (g x)) l; Ok (ys ++ zs))).
  by rewrite flat_mapM_app, IH.
Qed.

Lemma flat_mapM_fmap {A B C} (g : A -> B) (f : B -> result (list C)) (l : list A) :
  flat_mapM f (g <$> l) = flat_mapM (fun x => f (g x)) l.
Proof.
  induction l as [|x l IH]; [done|].
  rewrite fmap_cons. cbn [flat_mapM]. by rewrite IH.
Qed.

Lemma flat_mapM_ext {A B} (f g : A -> result (list B)) (l : list A) :
  (forall x, f x = g x) -> flat_mapM f l = flat_mapM g l.
Proof.
  intros Hfg. induction l as [|x l IH]; [done|]. cbn [flat_mapM].
  by rewrite Hfg, IH.
Qed.

Lemma flat_mapM_fmap_result {A B C} (r : A -> result (list B)) (f : B -> C) (l : list A) :
  flat_mapM (fun x => os ← r x; Ok (f <$> (os : list B))) l
  = (os ← flat_mapM r l; Ok (f <$> (os : list B))).
Proof.
  induction l as [|x l IH]; [done|]. cbn [flat_mapM]. rewrite IH.
  destruct (r x) as [ys|e]; [|done]. cbn [mbind result_bind].
  destruct (flat_mapM r l) as [zs|e]; [|done]. cbn [mbind result_bind].
  by rewrite fmap_app.
Qed.

Lemma flat_mapM_Ok_elem {A B} (f : A -> result (list B)) (l : list A) ys y :
  flat_mapM f l = Ok ys -> y ∈ ys ->
  exists x zs, x ∈ l /\ f x = Ok zs /\ y ∈ zs.
Proof.
  revert ys. induction l as [|x l IH]; intros ys Hl Hy.
  - simpl in Hl. simplify_eq. by apply elem_of_nil in Hy.
  - cbn [flat_mapM] in Hl. destruct (f x) as [zs|e] eqn:Hx; [|done].
    cbn [mbind result_bind] in Hl.
    destruct (flat_mapM f l) as [ws|e]; [|done].
    cbn [mbind result_bind] in Hl. simplify_eq.
    apply elem_of_app in Hy as [Hy|Hy].
    + exists x, zs. split; [left | done].
    + destruct (IH ws eq_refl Hy) as (x' & zs' & Hx' & Hf & Hy').
      exists x', zs'. split; [by right | done].
Qed.

Lemma gen_list_of_result {A} (r : result (list A)) : gen_list (gen_of_result r) = r.
Proof. destruct r; [apply gen_list_of_list | done]. Qed.

Lemma gen_list_app {A} (g h : gen A) :
  gen_list (gen_app g h) = (a ← gen_list g; b ← gen_list h; Ok (a ++ b)).
Proof.
  induction g as [|x g IH|e]; simpl.
  - by destruct (gen_list h).
  - rewrite IH. destruct (gen_list g) as [a|e]; [|done]. cbn [mbind result_bind].
    by destruct (gen_list h).
  - done.
Qed.

Lemma gen_list_bind_of_list {A B} (k : A -> gen B) (l : list A) :
  gen_list (gen_bind (gen_of_list l) k) = flat_mapM (fun x => gen_list (k x)) l.
Proof.
  induction l as [|x l IH]; [done|]. simpl. by rewrite gen_list_app, IH.
Qed.

Lemma find_fragment_expression (f : DatumInContext) :
  find MyriaFragment_expressions_operators f
  = flat_mapM (find Slice) (fields_find "operators" f).
Proof.
  unfold MyriaFragment_expressions_operators. rewrite !find_Child.
  change (find This f) with (Ok [f]). cbn [mbind result_bind flat_mapM].
  change (find (Fields "operators") f) with (Ok (fields_find "operators" f)).
  cbn [mbind result_bind]. by rewrite app_nil_r.
Qed.

(** The operators of the plan, fragment by fragment. *)
Lemma MyriaPlan_operators_by_fragment (plan : MyriaPlan) :
  gen_list (MyriaPlan_operators plan)
  = (fs ← find MyriaPlan_expressions_fragments (wrap (json plan));
     flat_mapM
       (fun f => gen_list (MyriaFragment_operators
                             {| fragment_datum := f; fragment_plan := plan |}))
       fs).
Proof.
  unfold MyriaPlan_operators. rewrite gen_list_of_result.
  unfold MyriaPlan_expressions_operators.
  change (Child (Child (Child Root (Fields "plan")) (Fields "fragments")) Slice)
    with MyriaPlan_expressions_fragments.
  rewrite (find_Child _ Slice), (find_Child _ (Fields "operators")).
  destruct (find MyriaPlan_expressions_fragments _) as [fs|e]; [|done].
  cbn [mbind result_bind].
  change (find (Fields "operators")) with (fun d => Ok (fields_find "operators" d)).
  rewrite flat_mapM_pure. cbn [mbind result_bind]. rewrite flat_mapM_mjoin.
  rewrite <- flat_mapM_fmap_result. apply flat_mapM_ext. intros f.
  unfold MyriaFragment_operators. rewrite gen_list_of_result.
  cbn [fragment_datum fragment_plan]. by rewrite find_fragment_expression.
Qed.

(** X1.  Listing [plan.operators] gives what listing [f.operators] for
    each [f] of [plan.fragments] in turn gives: the same operator views
    in the same order, or the same exception. *)
Theorem MyriaPlan_operators_chain_fragments (plan : MyriaPlan) :
  gen_list (MyriaPlan_operators plan)
  = gen_list (gen_bind (MyriaPlan_fragments plan) MyriaFragment_operators).
Proof.
  rewrite MyriaPlan_operators_by_fragment. unfold MyriaPlan_fragments.
  destruct (find MyriaPlan_expressions_fragments _) as [fs|e]; [|done].
  cbn [mbind result_bind gen_of_result].
  by rewrite gen_list_bind_of_list, flat_mapM_fmap.
Qed.

Lemma slice_find_context (d : DatumInContext) os o :
  slice_find d = Ok os -> o ∈ os ->
  exists c, datum_context o = Some c /\ datum_context c = datum_context d.
Proof.
  unfold slice_find. destruct d as [v p ctx]. cbn [datum_value datum_path datum_context].
  destruct v as [|b|z|s|l|m]; intros Hos Ho; simplify_eq;
    try (apply list_elem_of_singleton in Ho as ->; by eexists).
  apply elem_of_lookup_imap in Ho as (i & x & -> & _). by eexists.
Qed.

Lemma MyriaFragment_operators_context (fv : MyriaFragment) os op :
  gen_list (MyriaFragment_operators fv) = Ok os -> op ∈ os ->
  MyriaOperator_fragment op = Ok (Some (fragment_datum fv)) /\
  operator_plan op = fragment_plan fv.
Proof.
  unfold MyriaFragment_operators. rewrite gen_list_of_result, find_fragment_expression.
  destruct (flat_mapM _ _) as [ds|e] eqn:Hds; [|done].
  cbn [mbind result_bind]. intros [= <-] (o & -> & Ho)%list_elem_of_fmap.
  split; [|done].
  destruct (flat_mapM_Ok_elem _ _ _ _ Hds Ho) as (d & zs & Hd & Hzs & Hoz).
  destruct (slice_find_context d zs o Hzs Hoz) as (c & Hc & Hcd).
  unfold MyriaOperator_fragment. cbn [operator_datum]. rewrite Hc, Hcd.
  unfold fields_find in Hd. destruct (datum_value (fragment_datum fv)); try by apply elem_of_nil in Hd.
  destruct (dict_get d0 "operators"); [|by apply elem_of_nil in Hd].
  by apply list_elem_of_singleton in Hd as ->.
Qed.

(** X2.  Every operator that [plan.operators] yields comes from a fragment
    that [plan.fragments] yields: it is among that fragment's
    [operators], its [fragment] is the datum of that fragment, and its
    plan is [plan]. *)
Theorem MyriaOperator_fragment_of_plan (plan : MyriaPlan) ops op :
  gen_list (MyriaPlan_operators plan) = Ok ops ->
  op ∈ ops ->
  exists fvs fv os,
    gen_list (MyriaPlan_fragments plan) = Ok fvs /\
    fv ∈ fvs /\
    gen_list (MyriaFragment_operators fv) = Ok os /\
    op ∈ os /\
    MyriaOperator_fragment op = Ok (Some (fragment_datum fv)) /\
    operator_plan op = plan.
Proof.
  rewrite MyriaPlan_operators_by_fragment. unfold MyriaPlan_fragments.
  destruct (find MyriaPlan_expressions_fragments _) as [fs|e]; [|done].
  cbn [mbind result_bind gen_of_result]. intros Hops Hop.
  destruct (flat_mapM_Ok_elem _ _ _ _ Hops Hop) as (f & os & Hf & Hos & Hin).
  eexists _, {| fragment_datum := f; fragment_plan := plan |}, os.
  split; [apply gen_list_of_list|].
  split; [apply list_elem_of_fmap; by exists f|].
  split; [done|]. split; [done|].
  exact (MyriaFragment_operators_context
           {| fragment_datum := f; fragment_plan := plan |} os op Hos Hin).
Qed.

Lemma MyriaOperator_fragment_of_plan_witness :
  exists fvs fv os,
    gen_list (MyriaPlan_fragments plan1) = Ok fvs /\
    fv ∈ fvs /\
    gen_list (MyriaFragment_operators fv) = Ok os /\
    second_operator1 ∈ os /\
    MyriaOperator_fragment second_operator1 = Ok (Some (fragment_datum fv)) /\
    operator_plan second_operator1 = plan1.
Proof.
  apply (MyriaOperator_fragment_of_plan plan1 operators1 second_operator1).
  - vm_compute. reflexivity.
  - right. left.
Defined.

(** ** Children and parent are two readings of the same references *)

Lemma num_isinstance_int v : isinstance_int v = true -> exists n, num v = Some n.
Proof. destruct v; simpl; try done; eauto. Qed.

Lemma py_eq_num_r e x n : num e = Some n -> py_eq e x = true -> num x = Some n.
Proof.
  destruct e as [|b|z| | |], x as [|b'|z'| | |]; simpl; try done;
    intros [= <-] H; f_equal.
  - by apply Bool.eqb_prop in H as ->.
  - by apply Z.eqb_eq in H.
  - by apply Z.eqb_eq in H.
  - by apply Z.eqb_eq in H.
Qed.

Lemma py_eq_num_l e x n : num x = Some n -> py_eq e x = true -> num e = Some n.
Proof.
  destruct e as [|b|z| | |], x as [|b'|z'| | |]; simpl; try done;
    intros [= <-] H; f_equal.
  - by apply Bool.eqb_prop in H as ->.
  - by apply Z.eqb_eq in H.
  - by apply Z.eqb_eq in H.
  - by apply Z.eqb_eq in H.
Qed.

Lemma py_eq_num e x n : num e = Some n -> num x = Some n -> py_eq e x = true.
Proof.
  destruct e as [|b|z| | |], x as [|b'|z'| | |]; simpl; try done;
    intros [= <-] [= H].
  - apply Z.b2z_inj in H as ->. by destruct b.
  - by apply Z.eqb_eq.
  - by apply Z.eqb_eq.
  - by apply Z.eqb_eq.
Qed.

Lemma child_id_list_num op e : e ∈ child_id_list op -> exists n, num e = Some n.
Proof.
  unfold child_id_list. destruct (datum_value (operator_datum op)) as [| | | | |d];
    try by intros ?%elem_of_nil.
  intros ([k v] & -> & [_ Hkv]%elem_of_List_filter)%list_elem_of_fmap.
  apply num_isinstance_int. unfold is_child_item in Hkv.
  by apply andb_true_iff in Hkv as [_ ?].
Qed.

Lemma py_in_num x xs :
  py_in x xs = true <-> exists e, e ∈ xs /\ py_eq e x = true.
Proof.
  unfold py_in. rewrite existsb_exists. by setoid_rewrite list_elem_of_In.
Qed.

Lemma find_is_Some {A} (P : A -> bool) (l : list A) (x : A) :
  x ∈ l -> P x = true -> exists y, List.find P l = Some y.
Proof.
  intros Hx HP. destruct (List.find P l) as [y|] eqn:E; [by eexists|].
  by rewrite (find_None_all _ _ E x Hx) in HP.
Qed.

Section parent_children.
Variables (plan : MyriaPlan) (ops : list MyriaOperator).

Local Abbreviation children_list := (children_list ops).
Local Abbreviation references := (references ops).

Hypothesis Hops : MyriaPlan_operators plan = gen_of_list ops.
Hypothesis Hids : forall op, op ∈ ops -> has_opId op.

Lemma references_child self p :
  self ∈ ops -> references self p = true -> self ∈ children_list p.
Proof using Type.
  intros Hself Href. unfold references in Href.
  apply existsb_exists in Href as (c & Hc & Heq).
  apply list_elem_of_In, elem_of_List_filter in Hc as [_ Hin].
  apply py_in_num in Hin as (e & He & Hec).
  destruct (child_id_list_num _ _ He) as [n Hn].
  pose proof (py_eq_num_r _ _ _ Hn Hec) as Hc.
  pose proof (py_eq_num_l _ _ _ Hc Heq) as Hs.
  apply elem_of_List_filter. split; [done|].
  apply py_in_num. exists e. split; [done|]. by apply (py_eq_num _ _ n).
Qed.

Lemma child_references self q :
  self ∈ children_list q -> references self q = true.
Proof using Type.
  intros Hself. unfold references. apply existsb_exists.
  exists self. split; [by apply list_elem_of_In|].
  apply elem_of_List_filter in Hself as [_ Hin].
  apply py_in_num in Hin as (e & He & Hes).
  destruct (child_id_list_num _ _ He) as [n Hn].
  pose proof (py_eq_num_r _ _ _ Hn Hes) as Hs.
  by apply (py_eq_num _ _ n).
Qed.

Lemma parent_has_child self p :
  self ∈ ops ->
  MyriaOperator_parent self = Ok (Some p) ->
  exists cs, MyriaOperator_children p = gen_of_list cs /\ self ∈ cs.
Proof using Hops Hids.
  intros Hself Hp.
  rewrite (MyriaOperator_parent_find plan ops Hops Hids) in Hp
    by eauto using operator_plan_of.
  injection Hp as Hp. apply find_Some_split in Hp as (pre & post & Hsplit & Href & _).
  assert (p ∈ ops) as Hpin.
  { rewrite Hsplit. apply elem_of_app. right. left. }
  exists (children_list p). split.
  - apply (MyriaOperator_children_list plan); eauto using operator_plan_of.
  - by apply references_child.
Qed.

Lemma child_has_parent self q cs :
  self ∈ ops -> q ∈ ops ->
  MyriaOperator_children q = gen_of_list cs -> self ∈ cs ->
  exists p, MyriaOperator_parent self = Ok (Some p).
Proof using Hops Hids.
  intros Hself Hq Hcs Hin.
  rewrite (MyriaOperator_children_list plan ops Hops Hids) in Hcs
    by eauto using operator_plan_of.
  apply gen_of_list_inj in Hcs as <-.
  rewrite (MyriaOperator_parent_find plan ops Hops Hids)
    by eauto using operator_plan_of.
  destruct (find_is_Some (references self) ops q Hq (child_references _ _ Hin))
    as [p Hp].
  exists p. by rewrite Hp.
Qed.
End parent_children.

(** X3.  In a plan whose operators all carry an id, for an operator of
    the plan: the operator its [parent] returns has it among its
    [children], and if it is among the [children] of some operator of
    the plan then its [parent] is not [None]. *)
Theorem parent_children_agree
    (plan : MyriaPlan) (ops : list MyriaOperator) (self : MyriaOperator) :
  MyriaPlan_operators plan = gen_of_list ops ->
  (forall op, op ∈ ops -> has_opId op) ->
  self ∈ ops ->
  (forall p,
      MyriaOperator_parent self = Ok (Some p) ->
      exists cs, MyriaOperator_children p = gen_of_list cs /\ self ∈ cs) /\
  (forall q cs,
      q ∈ ops ->
      MyriaOperator_children q = gen_of_list cs ->
      self ∈ cs ->
      exists p, MyriaOperator_parent self = Ok (Some p)).
Proof.
  intros Hops Hids Hself. split.
  - intros p. by apply (parent_has_child plan ops).
  - intros q cs. by apply (child_has_parent plan ops).
Qed.

Lemma parent_children_agree_witness :
  (forall p,
      MyriaOperator_parent first_operator1 = Ok (Some p) ->
      exists cs, MyriaOperator_children p = gen_of_list cs /\ first_operator1 ∈ cs) /\
  (forall q cs,
      q ∈ operators1 ->
      MyriaOperator_children q = gen_of_list cs ->
      first_operator1 ∈ cs ->
      exists p, MyriaOperator_parent first_operator1 = Ok (Some p)).
Proof.
  apply (parent_children_agree plan1 operators1 first_operator1).
  - vm_compute. reflexivity.
  - intros op Hop. vm_compute in Hop.
    repeat (apply elem_of_cons in Hop as [->|Hop]; [eexists; reflexivity|]).
    by apply elem_of_nil in Hop.
  - left.
Defined.

(** ** The children of a built insert operator *)

Lemma filter_join_imap_unique {A B} (P : B -> bool) (l : list A) :
  forall (F : nat -> A -> list B) (k : nat) (a : A) (x : B),
    l !! k = Some a ->
    List.filter P (F k a) = [x] ->
    (forall j b, j <> k -> l !! j = Some b -> List.filter P (F j b) = []) ->
    List.filter P (mjoin (imap F l)) = [x].
Proof.
  induction l as [|b l IH]; intros F k a x Hk Hx Hother; [done|].
  rewrite imap_cons.
  change (List.filter P (F 0%nat b ++ mjoin (imap (F ∘ S) l)) = [x]).
  rewrite List.filter_app. destruct k as [|k].
  - simpl in Hk. simplify_eq. rewrite Hx.
    assert (List.filter P (mjoin (imap (F ∘ S) l)) = []) as ->; [|done].
    clear IH Hx.
    assert (forall (G : nat -> A -> list B),
               (forall j b, l !! j = Some b -> List.filter P (G j b) = []) ->
               List.filter P (mjoin (imap G l)) = []) as Hnil.
    { clear. induction l as [|c l IHl]; intros G HG; [done|].
      rewrite imap_cons.
      change (List.filter P (G 0%nat c ++ mjoin (imap (G ∘ S) l)) = []).
      rewrite List.filter_app, (HG 0%nat c) by done.
      apply (IHl (G ∘ S)). intros j d Hd. by apply (HG (S j) d). }
    apply Hnil. intros j d Hd. by apply (Hother (S j) d).
  - simpl in Hk. rewrite (Hother 0%nat b) by done.
    apply (IH (F ∘ S) k a x Hk Hx). intros j c Hj Hc.
    apply (Hother (S j) c); [lia | done].
Qed.

Section built_children.
Variables (schema : Schema) (relation scan_type insert_type : pyval).
Variables (scan_parameters insert_parameters : option dict).
Variables (work : list (pyval * pyval)) (text : pyval).

Local Abbreviation built_fragments :=
  (built_fragments schema relation scan_type insert_type
     scan_parameters insert_parameters work).
Local Abbreviation built_document :=
  (built_document schema relation scan_type insert_type
     scan_parameters insert_parameters work text).
Local Abbreviation built_top :=
  (built_top schema relation scan_type insert_type
     scan_parameters insert_parameters work text).
Local Abbreviation built_plan :=
  (built_plan schema relation scan_type insert_type
     scan_parameters insert_parameters work text).
Local Abbreviation scan_view :=
  (scan_view schema relation scan_type insert_type
     scan_parameters insert_parameters work text).
Local Abbreviation insert_view :=
  (insert_view schema relation scan_type insert_type
     scan_parameters insert_parameters work text).
Local Abbreviation built_ops :=
  (operator_views built_top built_document built_fragments).

Hypothesis Hscan_id : supplies scan_parameters "opId" = false.
Hypothesis Hinsert_id : supplies insert_parameters "opId" = false.
Hypothesis Hinsert_child : supplies_child_key insert_parameters = false.

Lemma children_of_insert_view k a :
  work !! k = Some a ->
  MyriaOperator_children (insert_view k a) = gen_of_list [scan_view k a].
Proof using Hscan_id Hinsert_id Hinsert_child.
  intros Hk.
  rewrite (MyriaOperator_children_list built_plan built_ops);
    [|apply built_MyriaPlan_operators
     |apply (built_operators_have_ids _ _ _ _ _ _ _ _ Hscan_id Hinsert_id)
     |done
     |eexists; by apply insert_view_id].
  f_equal. unfold children_list.
  rewrite (insert_view_child_ids _ _ _ _ _ _ _ _ Hinsert_child).
  rewrite built_operator_views.
  apply (filter_join_imap_unique _ _ _ k a); [done| |].
  - cbn [List.filter].
    rewrite (id_of_Ok _ _ (scan_view_id _ _ _ _ _ _ _ _ Hscan_id k a)).
    rewrite (id_of_Ok _ _ (insert_view_id _ _ _ _ _ _ _ _ Hinsert_id k a)).
    unfold py_in. cbn [existsb py_eq]. rewrite Z.eqb_refl. cbn [orb].
    by rewrite (proj2 (Z.eqb_neq (2 * Z.of_nat k) (2 * Z.of_nat k + 1))) by lia.
  - intros j b Hj _. cbn [List.filter].
    rewrite (id_of_Ok _ _ (scan_view_id _ _ _ _ _ _ _ _ Hscan_id j b)).
    rewrite (id_of_Ok _ _ (insert_view_id _ _ _ _ _ _ _ _ Hinsert_id j b)).
    unfold py_in. cbn [existsb py_eq orb].
    rewrite (proj2 (Z.eqb_neq (2 * Z.of_nat k) (2 * Z.of_nat j))) by lia.
    by rewrite (proj2 (Z.eqb_neq (2 * Z.of_nat k) (2 * Z.of_nat j + 1))) by lia.
Qed.
End built_children.

(** X4.  In the view of a freshly built plan (held under the key [plan],
    with extra parameters that do not bind [opId] and insert parameters
    that bind no key read as a child reference), the [children] of the
    insert operator of a fragment are exactly the scan operator of that
    fragment. *)
Theorem children_of_built_insert
    schema work relation text sp ip st it (h : heap) :
  supplies sp "opId" = false ->
  supplies ip "opId" = false ->
  supplies_child_key ip = false ->
  exists doc h' fvs,
    get_parallel_import_plan schema work relation text sp ip st it h = Ok (doc, h') /\
    MyriaPlan_fragments {| json := VDict [("plan", doc)] |} = gen_of_list fvs /\
    length fvs = length work /\
    forall fv, fv ∈ fvs ->
      exists scan insert,
        MyriaFragment_operators fv = gen_of_list [scan; insert] /\
        MyriaOperator_children insert = gen_of_list [scan].
Proof.
  intros Hs Hi Hic. eexists _, _, _.
  split; [apply get_parallel_import_plan_run|].
  split; [apply built_MyriaPlan_fragments|].
  split.
  { unfold fragment_views. by rewrite length_fmap, built_fragment_data, length_imap. }
  intros fv Hfv. unfold fragment_views in Hfv.
  apply list_elem_of_fmap in Hfv as (f & -> & Hf).
  rewrite built_fragment_data in Hf.
  apply elem_of_lookup_imap in Hf as (k & a & -> & Hk).
  exists (scan_view schema relation st it sp ip work text k a),
         (insert_view schema relation st it sp ip work text k a).
  split; [reflexivity|]. by apply children_of_insert_view.
Qed.

Lemma children_of_built_insert_witness :
  exists doc h' fvs,
    get_parallel_import_plan schema0 work2 relation0 (VStr "")
      (Some [("skip", VInt 1)]) None VNone VNone [] = Ok (doc, h') /\
    MyriaPlan_fragments {| json := VDict [("plan", doc)] |} = gen_of_list fvs /\
    length fvs = length work2 /\
    forall fv, fv ∈ fvs ->
      exists scan insert,
        MyriaFragment_operators fv = gen_of_list [scan; insert] /\
        MyriaOperator_children insert = gen_of_list [scan].
Proof.
  apply (children_of_built_insert schema0 work2 relation0 (VStr "")
           (Some [("skip", VInt 1)]) None VNone VNone []); reflexivity.
Defined.

(** ** The plan accessors on a built document *)

(** X5.  The view of a built document returns the text given to the
    builder as its [text] and as its [logicalRa]; the builder emits none
    of the fields [plan], [language] and [profilingMode], so [type],
    [language] and [profiling_mode] raise [KeyError], and so do [type]
    and [text] when the built document is held under the key [plan]. *)
Theorem built_document_accessors
    schema work relation text sp ip st it (h : heap) :
  exists doc h',
    get_parallel_import_plan schema work relation text sp ip st it h = Ok (doc, h') /\
    MyriaPlan_text {| json := doc |} = Ok text /\
    MyriaPlan_logicalRa {| json := doc |} = Ok text /\
    MyriaPlan_type {| json := doc |} = Raise (KeyError "plan") /\
    MyriaPlan_language {| json := doc |} = Raise (KeyError "language") /\
    MyriaPlan_profiling_mode {| json := doc |} = Raise (KeyError "profilingMode") /\
    MyriaPlan_type {| json := VDict [("plan", doc)] |} = Raise (KeyError "type") /\
    MyriaPlan_text {| json := VDict [("plan", doc)] |} = Raise (KeyError "rawQuery").
Proof.
  eexists _, _. split; [apply get_parallel_import_plan_run|]. by repeat split.
Qed.

(** ** Operator types and names of a built plan *)

Lemma scan_at_opType schema st sp c datasource :
  supplies sp "opType" = false ->
  dict_get (scan_at schema st sp c datasource) "opType"
  = Some (py_or st (VStr DEFAULT_SCAN_TYPE)).
Proof.
  intros H. unfold scan_at.
  by rewrite dict_get_update_None by by apply supplies_false.
Qed.

Lemma insert_at_opType relation it ip c :
  supplies ip "opType" = false ->
  dict_get (insert_at relation it ip c) "opType"
  = Some (py_or it (VStr DEFAULT_INSERT_TYPE)).
Proof.
  intros H. unfold insert_at.
  by rewrite dict_get_update_None by by apply supplies_false.
Qed.

(** X6.  Unless the extra parameters bind [opType], the [type] of every
    scan operator of a built plan is [scan_type] when that is true in a
    condition, and ['FileScan'] when it is not ([None], the empty
    string); likewise [insert_type] and ['DbInsert'] for every insert
    operator.  The builder sets no [opName]: [name] raises [KeyError]
    unless the extra parameters bind it. *)
Theorem built_operator_types_and_names
    schema work relation text sp ip st it (h : heap) :
  supplies sp "opType" = false ->
  supplies ip "opType" = false ->
  exists doc h' fvs,
    get_parallel_import_plan schema work relation text sp ip st it h = Ok (doc, h') /\
    MyriaPlan_fragments {| json := VDict [("plan", doc)] |} = gen_of_list fvs /\
    length fvs = length work /\
    forall fv, fv ∈ fvs ->
      exists scan insert,
        MyriaFragment_operators fv = gen_of_list [scan; insert] /\
        (py_truthy st = true -> MyriaOperator_type scan = Ok st) /\
        (py_truthy st = false -> MyriaOperator_type scan = Ok (VStr "FileScan")) /\
        (py_truthy it = true -> MyriaOperator_type insert = Ok it) /\
        (py_truthy it = false -> MyriaOperator_type insert = Ok (VStr "DbInsert")) /\
        (supplies sp "opName" = false ->
         MyriaOperator_name scan = Raise (KeyError "opName")) /\
        (supplies ip "opName" = false ->
         MyriaOperator_name insert = Raise (KeyError "opName")).
Proof.
  intros Hs Hi. eexists _, _, _.
  split; [apply get_parallel_import_plan_run|].
  split; [apply built_MyriaPlan_fragments|].
  split.
  { unfold fragment_views. by rewrite length_fmap, built_fragment_data, length_imap. }
  intros fv Hfv. unfold fragment_views in Hfv.
  apply list_elem_of_fmap in Hfv as (f & -> & Hf).
  rewrite built_fragment_data in Hf.
  apply elem_of_lookup_imap in Hf as (k & a & -> & Hk).
  exists (scan_view schema relation st it sp ip work text k a),
         (insert_view schema relation st it sp ip work text k a).
  split; [reflexivity|].
  unfold MyriaOperator_type, MyriaOperator_name.
  cbn [scan_view insert_view operator_datum datum_value].
  rewrite (py_getitem_Some _ _ _ (scan_at_opType schema st sp _ _ Hs)).
  rewrite (py_getitem_Some _ _ _ (insert_at_opType relation it ip _ Hi)).
  unfold py_or. repeat split.
  - by intros ->.
  - by intros ->.
  - by intros ->.
  - by intros ->.
  - intros Hn. apply py_getitem_None. unfold scan_at.
    by rewrite dict_get_update_None by by apply supplies_false.
  - intros Hn. apply py_getitem_None. unfold insert_at.
    by rewrite dict_get_update_None by by apply supplies_false.
Qed.

Lemma built_operator_types_and_names_witness :
  exists doc h' fvs,
    get_parallel_import_plan schema0 work2 relation0 (VStr "")
      (Some [("opName", VStr "scan")]) None (VStr "") (VStr "Upsert") []
      = Ok (doc, h') /\
    MyriaPlan_fragments {| json := VDict [("plan", doc)] |} = gen_of_list fvs /\
    length fvs = length work2 /\
    forall fv, fv ∈ fvs ->
      exists scan insert,
        MyriaFragment_operators fv = gen_of_list [scan; insert] /\
        MyriaOperator_type scan = Ok (VStr "FileScan") /\
        MyriaOperator_type insert = Ok (VStr "Upsert") /\
        MyriaOperator_name insert = Raise (KeyError "opName").
Proof.
  destruct (built_operator_types_and_names schema0 work2 relation0 (VStr "")
              (Some [("opName", VStr "scan")]) None (VStr "") (VStr "Upsert") []
              eq_refl eq_refl)
    as (doc & h' & fvs & Hrun & Hfvs & Hlen & Hall).
  exists doc, h', fvs. split; [exact Hrun|]. split; [exact Hfvs|].
  split; [exact Hlen|]. intros fv Hfv.
  destruct (Hall fv Hfv) as (scan & insert & Hops & _ & Hscan & Hinsert & _ & _ & Hname).
  exists scan, insert. split; [exact Hops|].
  split; [exact (Hscan eq_refl)|]. split; [exact (Hinsert eq_refl)|].
  exact (Hname eq_refl).
Defined.

(** ** The overlay of the extra parameters *)

Lemma dict_get_update d e key :
  dict_wf e ->
  dict_get (dict_update d e) key
  = match dict_get e key with
    | Some v => Some v
    | None => dict_get d key
    end.
Proof.
  intros Hwf. destruct (dict_get e key) as [v|] eqn:E.
  - by apply dict_get_update_Some.
  - by apply dict_get_update_None.
Qed.

(** X7.  In every emitted operator each key is bound as the extra
    parameters bind it and, where they do not, as the builder computed
    it: parameters add and overwrite keys and nothing else; whatever the
    parameters, no computed key is lost. *)
Theorem parameters_overlay
    schema work relation text sp ip st it (h : heap) :
  exists doc h' fragments,
    get_parallel_import_plan schema work relation text sp ip st it h = Ok (doc, h') /\
    document_fragments doc = Ok fragments /\
    forall (k : nat) worker_id datasource,
      work !! k = Some (worker_id, datasource) ->
      exists fragment scan insert,
        fragments !! k = Some fragment /\
        fragment_operators fragment = Ok [VDict scan; VDict insert] /\
        let computed_scan :=
          [("opId", VInt (2 * Z.of_nat k));
           ("opType", py_or st (VStr "FileScan"));
           ("schema", to_dict schema);
           ("source", datasource)] in
        let computed_insert :=
          [("opId", VInt (2 * Z.of_nat k + 1));
           ("opType", py_or it (VStr "DbInsert"));
           ("argChild", VInt (2 * Z.of_nat k));
           ("argOverwriteTable", VBool true);
           ("relationKey", relation)] in
        (forall key, is_Some (dict_get computed_scan key) ->
                     is_Some (dict_get scan key)) /\
        (forall key, is_Some (dict_get computed_insert key) ->
                     is_Some (dict_get insert key)) /\
        (dict_wf (or_empty sp) ->
         forall key,
           dict_get scan key
           = match dict_get (or_empty sp) key with
             | Some v => Some v
             | None => dict_get computed_scan key
             end) /\
        (dict_wf (or_empty ip) ->
         forall key,
           dict_get insert key
           = match dict_get (or_empty ip) key with
             | Some v => Some v
             | None => dict_get computed_insert key
             end).
Proof.
  eexists _, _, _.
  split; [apply get_parallel_import_plan_run|].
  split; [apply document_fragments_built|].
  intros k worker_id datasource Hk.
  eexists _, _, _. rewrite lookup_fragments_from, Hk.
  split; [reflexivity|]. split; [apply fragment_operators_at|].
  cbn zeta. cbn [snd]. rewrite Z.add_0_l. repeat split.
  - intros key. apply dict_get_update_is_Some.
  - intros key. apply dict_get_update_is_Some.
  - intros Hwf key. by apply dict_get_update.
  - intros Hwf key. by apply dict_get_update.
Qed.

Lemma parameters_overlay_witness :
  exists scan insert,
    fragment_operators
      (fragment_at schema0 relation0 VNone VNone
         (Some [("delimiter", VStr ","); ("opType", VStr "HdfsScan")]) None
         2 (VInt 2, VStr "b"))
      = Ok [VDict scan; VDict insert] /\
    dict_get scan "opId" = Some (VInt 2) /\
    dict_get scan "opType" = Some (VStr "HdfsScan") /\
    dict_get scan "delimiter" = Some (VStr ",") /\
    dict_get scan "opName" = None /\
    is_Some (dict_get insert "relationKey").
Proof.
  destruct (parameters_overlay schema0 [(VInt 1, VStr "a"); (VInt 2, VStr "b")]
              relation0 (VStr "")
              (Some [("delimiter", VStr ","); ("opType", VStr "HdfsScan")]) None
              VNone VNone [])
    as (doc & h' & fragments & Hrun & Hfrags & Hall).
  destruct (Hall 1%nat (VInt 2) (VStr "b") eq_refl)
    as (fragment & scan & insert & Hk & Hops & _ & Hkeep & Hscan & _).
  vm_compute in Hrun. injection Hrun as <- <-.
  vm_compute in Hfrags. injection Hfrags as <-.
  injection Hk as <-.
  exists scan, insert. split; [exact Hops|].
  assert (dict_wf (or_empty (Some [("delimiter", VStr ","); ("opType", VStr "HdfsScan")])))
    as Hwf by solve_dict_wf.
  split; [exact (Hscan Hwf "opId")|].
  split; [exact (Hscan Hwf "opType")|].
  split; [exact (Hscan Hwf "delimiter")|].
  split; [exact (Hscan Hwf "opName")|].
  apply Hkeep. by eexists.
Defined.

(** ** The counter *)

Lemma increment_first_item (value : ref) (h : heap) (c : Z) (rest : list Z) :
  h !! value = Some (c :: rest) ->
  __increment value h = Ok (c, <[value := (c + 1) :: rest]> h).
Proof.
  intros Hc. unfold __increment, mbind, M_bind, list_getitem, list_setitem.
  rewrite Hc. simpl. rewrite Hc. simpl.
  rewrite list_lookup_insert_eq by by eapply lookup_lt_Some.
  simpl. unfold mret, M_ret. do 2 f_equal. lia.
Qed.

Lemma increment_repeated (value : ref) (rest : list Z) (n : nat) :
  forall (h : heap) (c : Z),
    h !! value = Some (c :: rest) ->
    py_map (fun _ : unit => __increment value) (replicate n tt) h
    = Ok ((fun i : nat => c + Z.of_nat i) <$> seq 0 n,
          <[value := (c + Z.of_nat n) :: rest]> h).
Proof.
  induction n as [|n IH]; intros h c Hc.
  - simpl. unfold mret, M_ret. rewrite Z.add_0_r, list_insert_id; done.
  - pose proof (lookup_lt_Some _ _ _ Hc) as Hlt.
    cbn [replicate py_map]. unfold mbind, M_bind at 1.
    rewrite (increment_first_item _ _ _ _ Hc). unfold mbind, M_bind at 1.
    rewrite (IH _ (c + 1)) by by apply list_lookup_insert_eq.
    unfold mret, M_ret. rewrite list_insert_insert_eq.
    rewrite <- cons_seq, <- fmap_S_seq, fmap_cons, Z.add_0_r, <- list_fmap_compose.
    f_equal. f_equal.
    + f_equal. apply list_fmap_ext. intros _ i _. simpl. lia.
    + do 2 f_equal. lia.
Qed.

(** X8.  [n] calls of [__increment] on a list whose first item is [c]
    return [c], [c + 1], ..., [c + n - 1] and leave [c + n] as its first
    item; the rest of the list and the other lists of the store are as
    before.  On an empty list the call raises [IndexError]. *)
Theorem increment_counts (value : ref) (h : heap) :
  (forall (c : Z) (rest : list Z) (n : nat),
      h !! value = Some (c :: rest) ->
      py_map (fun _ : unit => __increment value) (replicate n tt) h
      = Ok ((fun i : nat => c + Z.of_nat i) <$> seq 0 n,
            <[value := (c + Z.of_nat n) :: rest]> h)) /\
  (h !! value = Some [] -> __increment value h = Raise IndexError).
Proof.
  split.
  - intros c rest n. apply increment_repeated.
  - intros Hc. unfold __increment, mbind, M_bind, list_getitem. by rewrite Hc.
Qed.

Lemma increment_counts_witness :
  py_map (fun _ : unit => __increment 1%nat) (replicate 3 tt) [[9]; [4; 8]; []]
    = Ok ([4; 5; 6], [[9]; [7; 8]; []]) /\
  __increment 2%nat [[9]; [4; 8]; []] = Raise IndexError.
Proof.
  split.
  - exact (proj1 (increment_counts 1%nat [[9]; [4; 8]; []]) 4 [8] 3%nat eq_refl).
  - exact (proj2 (increment_counts 2%nat [[9]; [4; 8]; []]) eq_refl).
Defined.

(** ** The dictionary interface of an operator *)

(** X9.  [add] never adds: whatever JSON value the operator holds has no
    [add] method, and the call raises [AttributeError]. *)
Theorem MyriaOperator_add_raises (self : MyriaOperator) (key : string) (value : pyval) :
  MyriaOperator_add self key value = Raise (AttributeError "add").
Proof.
  unfold MyriaOperator_add.
  by destruct (datum_value (operator_datum self)).
Qed.

Lemma length_dict_setitem d key v :
  length (dict_setitem d key v)
  = match dict_get d key with
    | Some _ => length d
    | None => S (length d)
    end.
Proof.
  induction d as [|[k w] d IH]; [done|]. simpl.
  destruct (String.eqb key k); simpl; [done|]. rewrite IH.
  by destruct (dict_get d key).
Qed.

(** X10.  On an operator that is an object, [self[item] = value]
    succeeds; in the new content [item] is bound to [value], every other
    key is bound as before, and the length has grown by one if [item] is
    new and is unchanged otherwise. *)
Theorem MyriaOperator_setitem_getitem
    (self : MyriaOperator) (d : dict) (item : string) (value : pyval) :
  datum_value (operator_datum self) = VDict d ->
  exists d',
    MyriaOperator___setitem__ self item value = Ok (VDict d') /\
    forall self' : MyriaOperator,
      datum_value (operator_datum self') = VDict d' ->
      MyriaOperator___getitem__ self' item = Ok value /\
      (forall other,
          other <> item ->
          MyriaOperator___getitem__ self' other = MyriaOperator___getitem__ self other) /\
      MyriaOperator___len__ self'
      = Ok (match MyriaOperator___getitem__ self item with
            | Ok _ => length d
            | Raise _ => S (length d)
            end).
Proof.
  intros Hd. exists (dict_setitem d item value).
  unfold MyriaOperator___setitem__, MyriaOperator___getitem__, MyriaOperator___len__.
  rewrite Hd. split; [done|]. intros self' ->. split; [|split].
  - apply py_getitem_Some, dict_get_setitem_eq.
  - intros other Hne. unfold py_getitem.
    by rewrite dict_get_setitem_ne by done.
  - cbn [py_len py_getitem]. rewrite length_dict_setitem.
    by destruct (dict_get d item).
Qed.

Lemma MyriaOperator_setitem_getitem_witness :
  exists d',
    MyriaOperator___setitem__ operator0 "opName" (VStr "scan") = Ok (VDict d') /\
    forall self' : MyriaOperator,
      datum_value (operator_datum self') = VDict d' ->
      MyriaOperator___getitem__ self' "opName" = Ok (VStr "scan") /\
      (forall other,
          other <> "opName" ->
          MyriaOperator___getitem__ self' other
          = MyriaOperator___getitem__ operator0 other) /\
      MyriaOperator___len__ self'
      = Ok (match MyriaOperator___getitem__ operator0 "opName" with
            | Ok _ => length [("opId", VInt 0); ("opType", VStr "FileScan")]
            | Raise _ => S (length [("opId", VInt 0); ("opType", VStr "FileScan")])
            end).
Proof.
  apply (MyriaOperator_setitem_getitem operator0
           [("opId", VInt 0); ("opType", VStr "FileScan")] "opName" (VStr "scan")).
  reflexivity.
Defined.

Lemma dict_delitem_absent d key :
  dict_get d key = None -> dict_delitem d key = None.
Proof.
  induction d as [|[k w] d IH]; [done|]. simpl.
  destruct (String.eqb key k); [done|]. intros Hd. by rewrite IH.
Qed.

Lemma dict_delitem_present d key v :
  dict_wf d ->
  dict_get d key = Some v ->
  exists d',
    dict_delitem d key = Some d' /\
    length d = S (length d') /\
    dict_get d' key = None /\
    forall other, other <> key -> dict_get d' other = dict_get d other.
Proof.
  induction d as [|[k w] d IH]; [done|]. intros Hwf Hget.
  apply NoDup_cons in Hwf as [Hk Hwf]. simpl in *.
  destruct (String.eqb key k) eqn:E.
  - apply String.eqb_eq in E. subst k. exists d. split; [done|]. split; [done|].
    split; [by apply dict_get_None_not_key|].
    intros other Hne. apply String.eqb_neq in Hne. by rewrite Hne.
  - destruct (IH Hwf Hget) as (d' & -> & Hlen & Hnone & Hother).
    exists ((k, w) :: d'). split; [done|]. split; [by rewrite Hlen|].
    simpl. rewrite E. split; [done|].
    intros other Hne. destruct (String.eqb other k); [done | by apply Hother].
Qed.

(** X11.  On an operator that is an object, [del self[key]] raises
    [KeyError] when [key] is not bound; when it is, the new content is
    one entry shorter, looking [key] up in it raises [KeyError], and
    every other key is bound as before. *)
Theorem MyriaOperator_delitem_getitem
    (self : MyriaOperator) (d : dict) (key : string) :
  datum_value (operator_datum self) = VDict d ->
  dict_wf d ->
  match MyriaOperator___getitem__ self key with
  | Raise _ => MyriaOperator___delitem__ self key = Raise (KeyError key)
  | Ok _ =>
      exists d',
        MyriaOperator___delitem__ self key = Ok (VDict d') /\
        length d = S (length d') /\
        forall self' : MyriaOperator,
          datum_value (operator_datum self') = VDict d' ->
          MyriaOperator___getitem__ self' key = Raise (KeyError key) /\
          forall other,
            other <> key ->
            MyriaOperator___getitem__ self' other
            = MyriaOperator___getitem__ self other
  end.
Proof.
  intros Hd Hwf. unfold MyriaOperator___getitem__, MyriaOperator___delitem__.
  rewrite Hd. cbn [py_getitem py_delitem].
  destruct (dict_get d key) as [v|] eqn:E.
  - destruct (dict_delitem_present d key v Hwf E) as (d' & -> & Hlen & Hnone & Hother).
    exists d'. split; [done|]. split; [done|]. intros self' ->. split.
    + by apply py_getitem_None.
    + intros other Hne. unfold py_getitem. by rewrite Hother.
  - by rewrite dict_delitem_absent.
Qed.

Lemma MyriaOperator_delitem_getitem_witness :
  (exists d',
      MyriaOperator___delitem__ operator0 "opType" = Ok (VDict d') /\
      length [("opId", VInt 0); ("opType", VStr "FileScan")] = S (length d') /\
      forall self' : MyriaOperator,
        datum_value (operator_datum self') = VDict d' ->
        MyriaOperator___getitem__ self' "opType" = Raise (KeyError "opType") /\
        forall other,
          other <> "opType" ->
          MyriaOperator___getitem__ self' other
          = MyriaOperator___getitem__ operator0 other) /\
  MyriaOperator___delitem__ operator0 "opName" = Raise (KeyError "opName").
Proof.
  assert (dict_wf [("opId", VInt 0); ("opType", VStr "FileScan")]) as Hwf
    by solve_dict_wf.
  split.
  - exact (MyriaOperator_delitem_getitem operator0 _ "opType" eq_refl Hwf).
  - exact (MyriaOperator_delitem_getitem operator0 _ "opName" eq_refl Hwf).
Defined.

Lemma elem_of_keys_iff (d : dict) key :
  key ∈ fst <$> d <-> is_Some (dict_get d key).
Proof.
  induction d as [|[k w] d IH].
  - split; [by intros ?%elem_of_nil | by intros [? ?]].
  - rewrite fmap_cons, elem_of_cons. simpl.
    destruct (String.eqb_spec key k) as [->|Hne].
    + split; [by eexists | by left].
    + rewrite <- IH. split; [by intros [?|?] | by right].
Qed.

Lemma dict_get_elem_of_values (d : dict) key v :
  dict_get d key = Some v -> v ∈ snd <$> d.
Proof.
  induction d as [|[k w] d IH]; [done|]. rewrite fmap_cons. simpl.
  destruct (String.eqb key k).
  - intros [= ->]. left.
  - intros H. right. by apply IH.
Qed.

(** X12.  On an operator that is an object, [keys()], [values()] and
    [items()] list the same entries in the same order, [__iter__]
    yields the keys and [__len__] counts them; a key is listed exactly
    when looking it up succeeds, and the value found is then among
    [values()]. *)
Theorem MyriaOperator_keys_values_items (self : MyriaOperator) (d : dict) :
  datum_value (operator_datum self) = VDict d ->
  exists ks vs,
    MyriaOperator_keys self = Ok ks /\
    MyriaOperator_values self = Ok vs /\
    MyriaOperator_items self = Ok (zip ks vs) /\
    MyriaOperator___iter__ self = gen_of_list (VStr <$> ks) /\
    MyriaOperator___len__ self = Ok (length ks) /\
    length vs = length ks /\
    (forall key, key ∈ ks <-> exists v, MyriaOperator___getitem__ self key = Ok v) /\
    (forall key v, MyriaOperator___getitem__ self key = Ok v -> v ∈ vs).
Proof.
  intros Hd. exists (fst <$> d), (snd <$> d).
  unfold MyriaOperator_keys, MyriaOperator_values, MyriaOperator_items,
    MyriaOperator___iter__, MyriaOperator___len__, MyriaOperator___getitem__.
  rewrite Hd. split; [done|]. split; [done|].
  split; [by rewrite zip_fst_snd|]. split; [done|].
  split; [by rewrite length_fmap|]. split; [by rewrite !length_fmap|].
  unfold py_getitem. split.
  - intros key. rewrite elem_of_keys_iff. split.
    + intros [v ->]. by exists v.
    + intros [v Hv]. destruct (dict_get d key); [by eexists | done].
  - intros key v Hv. destruct (dict_get d key) as [w|] eqn:E; [|done].
    simplify_eq. by eapply dict_get_elem_of_values.
Qed.

Lemma MyriaOperator_keys_values_items_witness :
  exists ks vs,
    MyriaOperator_keys operator0 = Ok ks /\
    MyriaOperator_values operator0 = Ok vs /\
    MyriaOperator_items operator0 = Ok (zip ks vs) /\
    MyriaOperator___iter__ operator0 = gen_of_list (VStr <$> ks) /\
    MyriaOperator___len__ operator0 = Ok (length ks) /\
    length vs = length ks /\
    (forall key, key ∈ ks <-> exists v, MyriaOperator___getitem__ operator0 key = Ok v) /\
    (forall key v, MyriaOperator___getitem__ operator0 key = Ok v -> v ∈ vs).
Proof.
  apply (MyriaOperator_keys_values_items operator0
           [("opId", VInt 0); ("opType", VStr "FileScan")]).
  reflexivity.
Defined.

(** ** A document without fragments *)

Lemma MyriaPlan_fragments_Stop (plan : MyriaPlan) :
  MyriaPlan_fragments plan = Stop ->
  find MyriaPlan_expressions_fragments (wrap (json plan)) = Ok [].
Proof.
  unfold MyriaPlan_fragments.
  destruct (find MyriaPlan_expressions_fragments _) as [[|f fs]|e]; done.
Qed.

Lemma MyriaPlan_operators_Stop (plan : MyriaPlan) :
  MyriaPlan_fragments plan = Stop -> MyriaPlan_operators plan = Stop.
Proof.
  intros Hfs%MyriaPlan_fragments_Stop.
  unfold MyriaPlan_operators, MyriaPlan_expressions_operators.
  change (Child (Child (Child Root (Fields "plan")) (Fields "fragments")) Slice)
    with MyriaPlan_expressions_fragments.
  rewrite (find_Child _ Slice), (find_Child _ (Fields "operators")).
  by rewrite Hfs.
Qed.

(** X13.  A document that is an object without a [plan] field, or whose
    [plan] is an object without a [fragments] field, has no fragments;
    and when [plan.fragments] yields nothing, [plan.operators] yields
    nothing and every operator view that refers to the plan has no
    children and [None] as its parent, whether or not it carries an
    [opId]. *)
Theorem plan_without_fragments (plan : MyriaPlan) :
  (forall d, json plan = VDict d -> dict_get d "plan" = None ->
             MyriaPlan_fragments plan = Stop) /\
  (forall d pd, json plan = VDict d -> dict_get d "plan" = Some (VDict pd) ->
                dict_get pd "fragments" = None ->
                MyriaPlan_fragments plan = Stop) /\
  (MyriaPlan_fragments plan = Stop ->
   MyriaPlan_operators plan = Stop /\
   forall self : MyriaOperator,
     operator_plan self = plan ->
     MyriaOperator_children self = Stop /\
     MyriaOperator_parent self = Ok None).
Proof.
  split; [|split].
  - intros d Hd Hplan. unfold MyriaPlan_fragments, MyriaPlan_expressions_fragments.
    rewrite Hd, !find_Child. cbn [find wrap root_find mbind result_bind flat_mapM].
    unfold fields_find at 2. cbn [datum_value]. by rewrite Hplan.
  - intros d pd Hd Hplan Hfr.
    unfold MyriaPlan_fragments, MyriaPlan_expressions_fragments.
    rewrite Hd, !find_Child. cbn [find wrap root_find mbind result_bind flat_mapM].
    unfold fields_find at 2. cbn [datum_value]. rewrite Hplan.
    cbn [mbind result_bind flat_mapM app]. unfold fields_find. cbn [datum_value].
    by rewrite Hfr.
  - intros Hfs. pose proof (MyriaPlan_operators_Stop plan Hfs) as Hops.
    split; [done|]. intros self Hself.
    unfold MyriaOperator_children, MyriaOperator_parent. by rewrite Hself, Hops.
Qed.

Lemma plan_without_fragments_witness :
  MyriaPlan_fragments {| json := VDict [("rawQuery", VStr "q")] |} = Stop /\
  MyriaPlan_fragments
    {| json := VDict [("plan", VDict [("type", VStr "SubQuery")])] |} = Stop /\
  MyriaPlan_operators {| json := VDict [("rawQuery", VStr "q")] |} = Stop /\
  MyriaOperator_children
    {| operator_datum := wrap (VDict [("argChild", VInt 0)]);
       operator_plan := {| json := VDict [("rawQuery", VStr "q")] |} |} = Stop /\
  MyriaOperator_parent
    {| operator_datum := wrap (VDict [("argChild", VInt 0)]);
       operator_plan := {| json := VDict [("rawQuery", VStr "q")] |} |} = Ok None.
Proof.
  destruct (plan_without_fragments {| json := VDict [("rawQuery", VStr "q")] |})
    as (Hno_plan & _ & Hempty).
  destruct (plan_without_fragments
              {| json := VDict [("plan", VDict [("type", VStr "SubQuery")])] |})
    as (_ & Hno_fragments & _).
  pose proof (Hno_plan _ eq_refl eq_refl) as Hfs.
  destruct (Hempty Hfs) as [Hops Hviews].
  destruct (Hviews {| operator_datum := wrap (VDict [("argChild", VInt 0)]);
                      operator_plan := {| json := VDict [("rawQuery", VStr "q")] |} |}
                   eq_refl) as [Hchildren Hparent].
  split; [exact Hfs|].
  split; [exact (Hno_fragments _ _ eq_refl eq_refl eq_refl)|].
  split; [exact Hops|]. split; [exact Hchildren | exact Hparent].
Defined.
